(** * The Thread API binding layer of OpenThread (src/core/api/thread_api.cpp)

    A shallow embedding of the [otThread*] calls.  Every call of the C++
    file receives an [otInstance *], looks components up with
    [instance.Get<T>()] and calls one or two of their methods.  Here the
    instance is a record of component states that is passed in and, for
    mutating calls, returned; an out-parameter is an argument (the caller's
    record before the call) and a component of the result (the record after
    the call).

    The components themselves (Mle::MleRouter, Mac::Mac, KeyManager,
    MeshCoP datasets, NeighborTable) are declared in headers that are not
    part of thread_api.cpp.  Their state and the methods the API calls are
    modelled from the design document; pure helpers the document leaves
    open are variables of the section that holds the API. *)

From Stdlib Require Import ZArith Bool Lia.
From stdpp Require Import base option list strings.

Local Open Scope Z_scope.

(** ** Error codes (the closed error set of the document, section 7) *)

Inductive Error : Set :=
| kErrorNone
| kErrorFailed
| kErrorInvalidArgs
| kErrorInvalidState
| kErrorDetached
| kErrorNotFound.

Global Instance Error_eq_dec : EqDecision Error.
Proof. solve_decision. Defined.

(** ** Fixed-size byte arrays of the public API *)

Definition otExtendedPanId := list Byte.byte.
Definition otNetworkKey := list Byte.byte.
Definition otMeshLocalPrefix := list Byte.byte.
Definition otExtAddress := list Byte.byte.

(** ** Neighbor and router records *)

Module Neighbor.

(** Modelled from the spec: the Neighbor::State enumeration (neighbor
    header, not part of the sources), as "link-established vs pending"
    (section 3); [kStateInvalid] is a released record. *)
Inductive State : Set :=
| kStateInvalid
| kStatePending
| kStateValid.

(** Modelled from the spec: the LinkQualityInfo class (not part of the
    sources), the link quality block of a record with the two RSSI values
    read by ParentAverageRssi and ParentLastRssi (section 6). *)
Record LinkQualityInfo : Set := {
  mAverageRss : Z;   (* int8_t *)
  mLastRss : Z;      (* int8_t *)
  mLinkQuality : Z   (* uint8_t *)
}.

Definition GetAverageRss (l : LinkQualityInfo) : Z := mAverageRss l.
Definition GetLastRss (l : LinkQualityInfo) : Z := mLastRss l.
Definition GetLinkQuality (l : LinkQualityInfo) : Z := mLinkQuality l.

End Neighbor.

(** Modelled from the spec: the Router class (not part of the sources),
    the Neighbor / Router record of section 3, {extended address, short
    address (RLOC16), link quality in/out, last-heard timestamp, path
    cost, next-hop, state}. *)
Record Router : Set := {
  mExtAddress : otExtAddress;
  mRloc16 : Z;                          (* uint16_t *)
  mNextHop : Z;                         (* uint8_t *)
  mCost : Z;                            (* uint8_t *)
  mLinkInfo : Neighbor.LinkQualityInfo;
  mLinkQualityOut : Z;                  (* uint8_t *)
  mLastHeard : Z;                       (* milliseconds, uint32_t *)
  mState : Neighbor.State
}.

Module RouterOps.

Definition GetExtAddress (r : Router) := mExtAddress r.
Definition GetRloc16 (r : Router) := mRloc16 r.
Definition GetNextHop (r : Router) := mNextHop r.
Definition GetCost (r : Router) := mCost r.
Definition GetLinkInfo (r : Router) := mLinkInfo r.
Definition GetLinkQualityOut (r : Router) := mLinkQualityOut r.
Definition GetLastHeard (r : Router) := mLastHeard r.

Definition IsStateValid (r : Router) : bool :=
  match mState r with
  | Neighbor.kStateValid => true
  | _ => false
  end.

Definition SetState (s : Neighbor.State) (r : Router) : Router :=
  {| mExtAddress := mExtAddress r;
     mRloc16 := mRloc16 r;
     mNextHop := mNextHop r;
     mCost := mCost r;
     mLinkInfo := mLinkInfo r;
     mLinkQualityOut := mLinkQualityOut r;
     mLastHeard := mLastHeard r;
     mState := s |}.

End RouterOps.

(** ** Mle::MleRouter: role, leader data, parent, mesh-local prefix *)

Module Mle.

Inductive DeviceRole : Set :=
| kRoleDisabled
| kRoleDetached
| kRoleChild
| kRoleRouter
| kRoleLeader.

Global Instance DeviceRole_eq_dec : EqDecision DeviceRole.
Proof. solve_decision. Defined.

(** Modelled from the spec: the otLeaderData structure (public header,
    not part of the sources), the LeaderData of section 3. *)
Record LeaderData : Set := {
  mPartitionId : Z;        (* uint32_t *)
  mWeighting : Z;          (* uint8_t *)
  mDataVersion : Z;        (* uint8_t *)
  mStableDataVersion : Z;  (* uint8_t *)
  mLeaderRouterId : Z      (* uint8_t *)
}.

Definition GetPartitionId (d : LeaderData) : Z := mPartitionId d.
Definition GetWeighting (d : LeaderData) : Z := mWeighting d.
Definition GetLeaderRouterId (d : LeaderData) : Z := mLeaderRouterId d.

Record MleRouter : Set := {
  mRole : DeviceRole;
  mLeaderData : LeaderData;
  mParent : Router;
  mMeshLocalPrefix : otMeshLocalPrefix;
  mTimeout : Z             (* child timeout, uint32_t *)
}.

Definition GetRole (m : MleRouter) : DeviceRole := mRole m.

(** Modelled from the spec: Mle::IsDisabled, the role test that guards the
    identity setters ("only permitted while Role == Disabled"). *)
Definition IsDisabled (m : MleRouter) : bool :=
  match mRole m with kRoleDisabled => true | _ => false end.

(** Modelled from the spec: Mle::IsDetached, the role test for Detached. *)
Definition IsDetached (m : MleRouter) : bool :=
  match mRole m with kRoleDetached => true | _ => false end.

(** Modelled from the spec: Mle::IsChild, the role test for Child. *)
Definition IsChild (m : MleRouter) : bool :=
  match mRole m with kRoleChild => true | _ => false end.

(** Modelled from the spec: Mle::IsRouter, the role test for Router. *)
Definition IsRouter (m : MleRouter) : bool :=
  match mRole m with kRoleRouter => true | _ => false end.

(** Modelled from the spec: Mle::IsLeader, the role test for Leader. *)
Definition IsLeader (m : MleRouter) : bool :=
  match mRole m with kRoleLeader => true | _ => false end.

(** Modelled from the spec: Mle::IsAttached, which section 4.1 gives as
    "true for {Child, Router, Leader}". *)
Definition IsAttached (m : MleRouter) : bool :=
  IsChild m || IsRouter m || IsLeader m.

(** Modelled from the spec: Mle::GetLeaderData, the stored LeaderData of
    section 4.4. *)
Definition GetLeaderData (m : MleRouter) : LeaderData := mLeaderData m.

(** Modelled from the spec: Mle::GetLeaderId, a "pure projection" of the
    stored LeaderData (section 4.4). *)
Definition GetLeaderId (m : MleRouter) : Z := GetLeaderRouterId (mLeaderData m).

(** Modelled from the spec: Mle::GetParent, the distinguished parent
    record (section 3). *)
Definition GetParent (m : MleRouter) : Router := mParent m.
Definition GetMeshLocalPrefix (m : MleRouter) : otMeshLocalPrefix := mMeshLocalPrefix m.
Definition GetTimeout (m : MleRouter) : Z := mTimeout m.

Definition SetRole (r : DeviceRole) (m : MleRouter) : MleRouter :=
  {| mRole := r;
     mLeaderData := mLeaderData m;
     mParent := mParent m;
     mMeshLocalPrefix := mMeshLocalPrefix m;
     mTimeout := mTimeout m |}.

Definition SetParent (p : Router) (m : MleRouter) : MleRouter :=
  {| mRole := mRole m;
     mLeaderData := mLeaderData m;
     mParent := p;
     mMeshLocalPrefix := mMeshLocalPrefix m;
     mTimeout := mTimeout m |}.

(** Modelled from the spec: Mle::SetMeshLocalPrefix; the prefix is stored
    state of the component (section 4.5, "no independent storage beyond
    the prefix itself"). *)
Definition SetMeshLocalPrefix (p : otMeshLocalPrefix) (m : MleRouter) : MleRouter :=
  {| mRole := mRole m;
     mLeaderData := mLeaderData m;
     mParent := mParent m;
     mMeshLocalPrefix := p;
     mTimeout := mTimeout m |}.

Definition SetTimeout (t : Z) (m : MleRouter) : MleRouter :=
  {| mRole := mRole m;
     mLeaderData := mLeaderData m;
     mParent := mParent m;
     mMeshLocalPrefix := mMeshLocalPrefix m;
     mTimeout := t |}.

End Mle.

(** ** Mac::Mac: extended PAN id, network name, domain name *)

Module Mac.

Record Mac : Set := {
  mExtendedPanId : otExtendedPanId;
  mNetworkName : string;
  mDomainName : string
}.

Definition GetExtendedPanId (m : Mac) : otExtendedPanId := mExtendedPanId m.
Definition GetNetworkName (m : Mac) : string := mNetworkName m.
Definition GetDomainName (m : Mac) : string := mDomainName m.

(** Modelled from the spec: Mac::SetExtendedPanId; the extended PAN id is
    a stored mesh-identity attribute (section 3). *)
Definition SetExtendedPanId (x : otExtendedPanId) (m : Mac) : Mac :=
  {| mExtendedPanId := x;
     mNetworkName := mNetworkName m;
     mDomainName := mDomainName m |}.

(** Modelled from the spec: a network-name setter that refuses oversized
    input with InvalidArgs (section 7) and stores any other name.  The API
    below takes the setter as a variable; this one instantiates it. *)
Definition SetNetworkNameBounded (maxLen : nat) (name : string) (m : Mac) : Error * Mac :=
  if (maxLen <? String.length name)%nat
  then (kErrorInvalidArgs, m)
  else (kErrorNone,
        {| mExtendedPanId := mExtendedPanId m;
           mNetworkName := name;
           mDomainName := mDomainName m |}).

End Mac.

(** ** KeyManager: network key, key sequence, guard time *)

Module KeyManager.

Record KeyManager : Set := {
  mNetworkKey : otNetworkKey;
  mKeySequence : Z;          (* uint32_t *)
  mKeySwitchGuardTime : Z;   (* hours, uint32_t *)
  mLastRotation : Z          (* hour of the last rotation *)
}.

Definition GetNetworkKey (k : KeyManager) : otNetworkKey := mNetworkKey k.
Definition GetCurrentKeySequence (k : KeyManager) : Z := mKeySequence k.
Definition GetKeySwitchGuardTime (k : KeyManager) : Z := mKeySwitchGuardTime k.

(** Modelled from the spec: KeyManager::SetNetworkKey stores the key
    (section 4.2); the role guard is the caller's. *)
Definition SetNetworkKey (key : otNetworkKey) (k : KeyManager) : KeyManager :=
  {| mNetworkKey := key;
     mKeySequence := mKeySequence k;
     mKeySwitchGuardTime := mKeySwitchGuardTime k;
     mLastRotation := mLastRotation k |}.

(** Modelled from the spec: KeyManager::SetCurrentKeySequence, "setter is
    unconditional (administrative override)" (section 4.2): it stores the
    given sequence and consults neither the role nor the guard. *)
Definition SetCurrentKeySequence (seq : Z) (k : KeyManager) : KeyManager :=
  {| mNetworkKey := mNetworkKey k;
     mKeySequence := seq;
     mKeySwitchGuardTime := mKeySwitchGuardTime k;
     mLastRotation := mLastRotation k |}.

(** Modelled from the spec: KeyManager::SetKeySwitchGuardTime, "guard
    value in hours; 0 disables the guard" (section 4.2). *)
Definition SetKeySwitchGuardTime (g : Z) (k : KeyManager) : KeyManager :=
  {| mNetworkKey := mNetworkKey k;
     mKeySequence := mKeySequence k;
     mKeySwitchGuardTime := g;
     mLastRotation := mLastRotation k |}.

(** Modelled from the spec: the normal rotation path, which "increments
    the sequence only after KeySwitchGuardTime has elapsed since the last
    rotation, applied modulo-wraparound"; an attempt before that "is
    refused" and leaves the key manager as it is (section 4.2).  [now] is
    the hour of the attempt. *)
Definition AutomaticRotation (now : Z) (k : KeyManager) : KeyManager :=
  if mLastRotation k + mKeySwitchGuardTime k <=? now
  then {| mNetworkKey := mNetworkKey k;
          mKeySequence := (mKeySequence k + 1) mod 2 ^ 32;
          mKeySwitchGuardTime := mKeySwitchGuardTime k;
          mLastRotation := now |}
  else k.

End KeyManager.

(** ** MeshCoP: the active and pending operational datasets *)

Module MeshCoP.

(** Modelled from the spec: the state of MeshCoP::ActiveDataset and
    MeshCoP::PendingDataset (not part of the sources), a stored
    operational dataset (section 3, invariant); [None] is "no dataset
    stored". *)
Definition Dataset : Set := option (list Byte.byte).

(** Modelled from the spec: Dataset::Clear, which "clears any
    previously-persisted operational/pending configuration datasets". *)
Definition Clear (d : Dataset) : Dataset := None.

Definition IsCleared (d : Dataset) : Prop := d = None.

End MeshCoP.

(** ** NeighborTable: a fixed-capacity table and its cursor *)

Module NeighborTable.

(** Modelled from the spec: the NeighborTable class (not part of the
    sources), the "fixed-capacity table ... of neighbor/router records" of
    section 4.3.  The capacity is the length of the list; a slot is free
    ([None]) or holds a present record. *)
Definition NeighborTable : Set := list (option Router).

(** Modelled from the spec: the otNeighborInfoIterator type (public
    header, not part of the sources), the "opaque, restartable cursor";
    "a fresh/zero iterator begins enumeration". *)
Definition otNeighborInfoIterator : Set := nat.

Definition OT_NEIGHBOR_INFO_ITERATOR_INIT : otNeighborInfoIterator := 0%nat.

(** The first present record of [slots], whose first slot has index
    [index] in the table. *)
Fixpoint FindLive (slots : list (option Router)) (index : nat) : option (nat * Router) :=
  match slots with
  | [] => None
  | Some r :: _ => Some (index, r)
  | None :: rest => FindLive rest (S index)
  end.

(** Modelled from the spec: NeighborTable::GetNextNeighborInfo, "each call
    advances and yields the next live record or signals end-of-table"
    (section 4.3).  The result is the error, the cursor after the call and
    the caller's record after the call. *)
Definition GetNextNeighborInfo (aIterator : otNeighborInfoIterator) (aInfo : Router)
    (t : NeighborTable) : Error * otNeighborInfoIterator * Router :=
  match FindLive (drop aIterator t) aIterator with
  | Some (i, r) => (kErrorNone, S i, r)
  | None => (kErrorNotFound, aIterator, aInfo)
  end.

(** Modelled from the spec: the release of "all neighbor/router state"
    that Mle::Stop performs on the table (section 4.1): every slot becomes
    free, the capacity stays. *)
Definition Clear (t : NeighborTable) : NeighborTable := map (fun _ => None) t.

(** The present records of a table, in slot order, each with the cursor
    value that follows its slot. *)
Fixpoint PresentFrom (index : nat) (slots : list (option Router)) : list (nat * Router) :=
  match slots with
  | [] => []
  | Some r :: rest => (S index, r) :: PresentFrom (S index) rest
  | None :: rest => PresentFrom (S index) rest
  end.

Definition Present (t : NeighborTable) : list (nat * Router) := PresentFrom 0 t.

End NeighborTable.

(** ** The instance: one state per component *)

Record Instance : Set := {
  mMleRouter : Mle.MleRouter;
  mMac : Mac.Mac;
  mKeyManager : KeyManager.KeyManager;
  mActiveDataset : MeshCoP.Dataset;
  mPendingDataset : MeshCoP.Dataset;
  mNeighborTable : NeighborTable.NeighborTable
}.

(** ** API calls as computations on the instance

    A C function that receives [otInstance *] is a computation that reads
    and may update the instance; [Api A] is such a computation with a
    result of type [A]. *)

Definition Api (A : Type) : Type := Instance -> A * Instance.

Definition ret {A : Type} (a : A) : Api A := fun i => (a, i).

Definition bind {A B : Type} (m : Api A) (k : A -> Api B) : Api B :=
  fun i => let (a, i') := m i in k a i'.

Declare Scope api_scope.
Delimit Scope api_scope with api.
Bind Scope api_scope with Api.

Notation "x <- m ;; k" := (bind m (fun x => k))
  (at level 100, m at next level, right associativity) : api_scope.
Notation "m ;; k" := (bind m (fun _ => k))
  (at level 100, right associativity) : api_scope.

(** A const method of a component, and a void method of a component, as
    computations on that component. *)
Definition Const {C A : Type} (f : C -> A) : C -> A * C := fun c => (f c, c).
Definition Void {C : Type} (f : C -> C) : C -> unit * C := fun c => (tt, f c).

(** [instance.Get<T>().method(...)]: run a method on component [T]. *)
Module Get.

Definition MleRouter {A : Type} (method : Mle.MleRouter -> A * Mle.MleRouter) : Api A :=
  fun i =>
    let (a, c) := method (mMleRouter i) in
    (a, {| mMleRouter := c;
           mMac := mMac i;
           mKeyManager := mKeyManager i;
           mActiveDataset := mActiveDataset i;
           mPendingDataset := mPendingDataset i;
           mNeighborTable := mNeighborTable i |}).

Definition Mac {A : Type} (method : Mac.Mac -> A * Mac.Mac) : Api A :=
  fun i =>
    let (a, c) := method (mMac i) in
    (a, {| mMleRouter := mMleRouter i;
           mMac := c;
           mKeyManager := mKeyManager i;
           mActiveDataset := mActiveDataset i;
           mPendingDataset := mPendingDataset i;
           mNeighborTable := mNeighborTable i |}).

Definition KeyManager {A : Type}
    (method : KeyManager.KeyManager -> A * KeyManager.KeyManager) : Api A :=
  fun i =>
    let (a, c) := method (mKeyManager i) in
    (a, {| mMleRouter := mMleRouter i;
           mMac := mMac i;
           mKeyManager := c;
           mActiveDataset := mActiveDataset i;
           mPendingDataset := mPendingDataset i;
           mNeighborTable := mNeighborTable i |}).

Definition ActiveDataset {A : Type} (method : MeshCoP.Dataset -> A * MeshCoP.Dataset) : Api A :=
  fun i =>
    let (a, c) := method (mActiveDataset i) in
    (a, {| mMleRouter := mMleRouter i;
           mMac := mMac i;
           mKeyManager := mKeyManager i;
           mActiveDataset := c;
           mPendingDataset := mPendingDataset i;
           mNeighborTable := mNeighborTable i |}).

Definition PendingDataset {A : Type} (method : MeshCoP.Dataset -> A * MeshCoP.Dataset) : Api A :=
  fun i =>
    let (a, c) := method (mPendingDataset i) in
    (a, {| mMleRouter := mMleRouter i;
           mMac := mMac i;
           mKeyManager := mKeyManager i;
           mActiveDataset := mActiveDataset i;
           mPendingDataset := c;
           mNeighborTable := mNeighborTable i |}).

Definition NeighborTable {A : Type}
    (method : NeighborTable.NeighborTable -> A * NeighborTable.NeighborTable) : Api A :=
  fun i =>
    let (a, c) := method (mNeighborTable i) in
    (a, {| mMleRouter := mMleRouter i;
           mMac := mMac i;
           mKeyManager := mKeyManager i;
           mActiveDataset := mActiveDataset i;
           mPendingDataset := mPendingDataset i;
           mNeighborTable := c |}).

End Get.

Local Open Scope api_scope.

(** ** Start and Stop of the role state machine

    The two methods belong to Mle::MleRouter; Stop reaches the neighbor
    table through the instance, so both are computations on the
    instance. *)

Module MleRouter.

(** Modelled from the spec: Mle::Start, which "transitions Disabled ->
    Detached, fails with InvalidState if already started" (section 4.1). *)
Definition Start : Api Error :=
  disabled <- Get.MleRouter (Const Mle.IsDisabled) ;;
  if disabled : bool
  then (Get.MleRouter (Void (Mle.SetRole Mle.kRoleDetached)) ;;
        ret kErrorNone)
  else ret kErrorInvalidState.

(** Modelled from the spec: Mle::Stop, which "transitions any state ->
    Disabled; idempotent; releases all neighbor/router state" (section
    4.1) "without leaving a parent reference dangling" (section 5). *)
Definition Stop : Api unit :=
  Get.NeighborTable (Void NeighborTable.Clear) ;;
  Get.MleRouter
    (Void (fun m => Mle.SetParent (RouterOps.SetState Neighbor.kStateInvalid (Mle.mParent m)) m)) ;;
  Get.MleRouter (Void (Mle.SetRole Mle.kRoleDisabled)).

End MleRouter.

(** ** Helpers the design document leaves open

    Pure helpers, constants and the build flag that thread_api.cpp uses
    and that are declared elsewhere.  The document fixes none of them
    bit-exactly, so the API is stated for any choice. *)

Class Externals : Type := {
  (* Mle::MeshLocalPrefix::SetFromExtendedPanId, the prefix "derived
     deterministically from the Extended PAN ID" *)
  SetFromExtendedPanId : otExtendedPanId -> otMeshLocalPrefix;
  (* Mac::SetNetworkName, which returns an error code *)
  Mac_SetNetworkName : string -> Mac.Mac -> Error * Mac.Mac;
  (* Mle::RouterIdFromRloc16, the router-ID bits of a short address *)
  RouterIdFromRloc16 : Z -> Z;
  (* Time::MsecToSec *)
  MsecToSec : Z -> Z;
  (* the invalid-RSSI sentinel, an int8_t *)
  OT_RADIO_RSSI_INVALID : Z;
  (* the reference-device build flag *)
  OPENTHREAD_CONFIG_REFERENCE_DEVICE_ENABLE : bool
}.

(** The record that otThreadGetParentInfo fills. *)
Module RouterInfo.

Record otRouterInfo : Set := {
  mExtAddress : otExtAddress;
  mRloc16 : Z;
  mRouterId : Z;
  mNextHop : Z;
  mPathCost : Z;
  mLinkQualityIn : Z;
  mLinkQualityOut : Z;
  mAge : Z;
  mAllocated : bool;
  mLinkEstablished : bool
}.

End RouterInfo.

(** ** thread_api.cpp *)

Section ThreadApi.

Context `{Externals}.

Definition otThreadGetChildTimeout : Api Z :=
  Get.MleRouter (Const Mle.GetTimeout).

Definition otThreadSetChildTimeout (aTimeout : Z) : Api unit :=
  Get.MleRouter (Void (Mle.SetTimeout aTimeout)).

Definition otThreadGetExtendedPanId : Api otExtendedPanId :=
  Get.Mac (Const Mac.GetExtendedPanId).

Definition otThreadSetExtendedPanId (aExtendedPanId : otExtendedPanId) : Api Error :=
  disabled <- Get.MleRouter (Const Mle.IsDisabled) ;;
  if disabled : bool
  then (Get.Mac (Void (Mac.SetExtendedPanId aExtendedPanId)) ;;
        let prefix := SetFromExtendedPanId aExtendedPanId in
        Get.MleRouter (Void (Mle.SetMeshLocalPrefix prefix)) ;;
        Get.ActiveDataset (Void MeshCoP.Clear) ;;
        Get.PendingDataset (Void MeshCoP.Clear) ;;
        ret kErrorNone)
  else ret kErrorInvalidState.

Definition otThreadGetNetworkKey : Api otNetworkKey :=
  Get.KeyManager (Const KeyManager.GetNetworkKey).

Definition otThreadSetNetworkKey (aKey : otNetworkKey) : Api Error :=
  disabled <- Get.MleRouter (Const Mle.IsDisabled) ;;
  if disabled : bool
  then (Get.KeyManager (Void (KeyManager.SetNetworkKey aKey)) ;;
        Get.ActiveDataset (Void MeshCoP.Clear) ;;
        Get.PendingDataset (Void MeshCoP.Clear) ;;
        ret kErrorNone)
  else ret kErrorInvalidState.

Definition otThreadGetMeshLocalPrefix : Api otMeshLocalPrefix :=
  Get.MleRouter (Const Mle.GetMeshLocalPrefix).

Definition otThreadSetMeshLocalPrefix (aMeshLocalPrefix : otMeshLocalPrefix) : Api Error :=
  disabled <- Get.MleRouter (Const Mle.IsDisabled) ;;
  if disabled : bool
  then (Get.MleRouter (Void (Mle.SetMeshLocalPrefix aMeshLocalPrefix)) ;;
        Get.ActiveDataset (Void MeshCoP.Clear) ;;
        Get.PendingDataset (Void MeshCoP.Clear) ;;
        ret kErrorNone)
  else ret kErrorInvalidState.

Definition otThreadGetNetworkName : Api string :=
  Get.Mac (Const Mac.GetNetworkName).

Definition otThreadSetNetworkName (aNetworkName : string) : Api Error :=
  disabled <- Get.MleRouter (Const Mle.IsDisabled) ;;
  if disabled : bool
  then (error <- Get.Mac (Mac_SetNetworkName aNetworkName) ;;
        Get.ActiveDataset (Void MeshCoP.Clear) ;;
        Get.PendingDataset (Void MeshCoP.Clear) ;;
        ret error)
  else ret kErrorInvalidState.

Definition otThreadGetKeySequenceCounter : Api Z :=
  Get.KeyManager (Const KeyManager.GetCurrentKeySequence).

Definition otThreadSetKeySequenceCounter (aKeySequenceCounter : Z) : Api unit :=
  Get.KeyManager (Void (KeyManager.SetCurrentKeySequence aKeySequenceCounter)).

Definition otThreadGetKeySwitchGuardTime : Api Z :=
  Get.KeyManager (Const KeyManager.GetKeySwitchGuardTime).

Definition otThreadSetKeySwitchGuardTime (aKeySwitchGuardTime : Z) : Api unit :=
  Get.KeyManager (Void (KeyManager.SetKeySwitchGuardTime aKeySwitchGuardTime)).

(** The result is the error, the caller's iterator and the caller's record
    after the call. *)
Definition otThreadGetNextNeighborInfo (aIterator : NeighborTable.otNeighborInfoIterator)
    (aInfo : Router) : Api (Error * NeighborTable.otNeighborInfoIterator * Router) :=
  Get.NeighborTable (Const (NeighborTable.GetNextNeighborInfo aIterator aInfo)).

Definition otThreadGetDeviceRole : Api Mle.DeviceRole :=
  Get.MleRouter (Const Mle.GetRole).

(** The result is the error and [*aLeaderData] after the call. *)
Definition otThreadGetLeaderData (aLeaderData : Mle.LeaderData) : Api (Error * Mle.LeaderData) :=
  attached <- Get.MleRouter (Const Mle.IsAttached) ;;
  if attached : bool
  then (leaderData <- Get.MleRouter (Const Mle.GetLeaderData) ;;
        ret (kErrorNone, leaderData))
  else ret (kErrorDetached, aLeaderData).

Definition otThreadGetLeaderRouterId : Api Z :=
  Get.MleRouter (Const Mle.GetLeaderId).

Definition otThreadGetLeaderWeight : Api Z :=
  Get.MleRouter (Const (fun m => Mle.GetWeighting (Mle.GetLeaderData m))).

Definition otThreadGetPartitionId : Api Z :=
  Get.MleRouter (Const (fun m => Mle.GetPartitionId (Mle.GetLeaderData m))).

(** [now] is the value of [TimerMilli::GetNow()]; the difference of two
    times is a 32-bit duration.  With the reference-device flag set the
    role check is compiled out.  The result is the error and
    [*aParentInfo] after the call. *)
Definition otThreadGetParentInfo (now : Z) (aParentInfo : RouterInfo.otRouterInfo)
    : Api (Error * RouterInfo.otRouterInfo) :=
  proceed <- (if OPENTHREAD_CONFIG_REFERENCE_DEVICE_ENABLE
              then ret true
              else Get.MleRouter (Const Mle.IsChild)) ;;
  if proceed : bool
  then (parent <- Get.MleRouter (Const Mle.GetParent) ;;
        ret (kErrorNone,
             {| RouterInfo.mExtAddress := RouterOps.GetExtAddress parent;
                RouterInfo.mRloc16 := RouterOps.GetRloc16 parent;
                RouterInfo.mRouterId := RouterIdFromRloc16 (RouterOps.GetRloc16 parent);
                RouterInfo.mNextHop := RouterOps.GetNextHop parent;
                RouterInfo.mPathCost := RouterOps.GetCost parent;
                RouterInfo.mLinkQualityIn :=
                  Neighbor.GetLinkQuality (RouterOps.GetLinkInfo parent);
                RouterInfo.mLinkQualityOut := RouterOps.GetLinkQualityOut parent;
                RouterInfo.mAge :=
                  MsecToSec ((now - RouterOps.GetLastHeard parent) mod 2 ^ 32) mod 2 ^ 8;
                RouterInfo.mAllocated := true;
                RouterInfo.mLinkEstablished := RouterOps.IsStateValid parent |}))
  else ret (kErrorInvalidState, aParentInfo).

(** The result is the error and [*aParentRssi] after the call; the
    out-parameter is written before the test. *)
Definition otThreadGetParentAverageRssi : Api (Error * Z) :=
  aParentRssi <- Get.MleRouter
                   (Const (fun m => Neighbor.GetAverageRss
                                      (RouterOps.GetLinkInfo (Mle.GetParent m)))) ;;
  if negb (aParentRssi =? OT_RADIO_RSSI_INVALID)
  then ret (kErrorNone, aParentRssi)
  else ret (kErrorFailed, aParentRssi).

Definition otThreadGetParentLastRssi : Api (Error * Z) :=
  aLastRssi <- Get.MleRouter
                 (Const (fun m => Neighbor.GetLastRss
                                    (RouterOps.GetLinkInfo (Mle.GetParent m)))) ;;
  if negb (aLastRssi =? OT_RADIO_RSSI_INVALID)
  then ret (kErrorNone, aLastRssi)
  else ret (kErrorFailed, aLastRssi).

Definition otThreadSetEnabled (aEnabled : bool) : Api Error :=
  if aEnabled
  then MleRouter.Start
  else (MleRouter.Stop ;; ret kErrorNone).

End ThreadApi.

(** ** Callers of the API used in the statements below *)

(** One enumeration pass over the neighbor table: the caller starts from
    an iterator, calls otThreadGetNextNeighborInfo until it signals
    end-of-table, and collects what each successful call left in its
    iterator and in its record.  [None] means the pass did not see the
    end-of-table signal: it was cut short after [fuel] calls, or a call
    returned another error. *)
Fixpoint EnumerateNeighbors (fuel : nat) (aIterator : NeighborTable.otNeighborInfoIterator)
    (aInfo : Router) : Api (option (list (NeighborTable.otNeighborInfoIterator * Router))) :=
  match fuel with
  | O => ret None
  | S fuel' =>
      r <- otThreadGetNextNeighborInfo aIterator aInfo ;;
      match r with
      | (kErrorNone, aIterator', aInfo') =>
          rest <- EnumerateNeighbors fuel' aIterator' aInfo' ;;
          ret (option_map (cons (aIterator', aInfo')) rest)
      | (kErrorNotFound, _, _) => ret (Some [])
      | _ => ret None
      end
  end.

(** The four identity setters, each with its argument. *)
Inductive IdentitySetter : Set :=
| IdExtendedPanId (aExtendedPanId : otExtendedPanId)
| IdNetworkKey (aKey : otNetworkKey)
| IdNetworkName (aNetworkName : string)
| IdMeshLocalPrefix (aMeshLocalPrefix : otMeshLocalPrefix).

Definition CallIdentitySetter `{Externals} (s : IdentitySetter) : Api Error :=
  match s with
  | IdExtendedPanId x => otThreadSetExtendedPanId x
  | IdNetworkKey k => otThreadSetNetworkKey k
  | IdNetworkName n => otThreadSetNetworkName n
  | IdMeshLocalPrefix p => otThreadSetMeshLocalPrefix p
  end.

(** A sequence of automatic rotation attempts at the given hours. *)
Definition AutomaticRotations (hours : list Z) (k : KeyManager.KeyManager)
    : KeyManager.KeyManager :=
  fold_left (fun k now => KeyManager.AutomaticRotation now k) hours k.

(** ** A concrete device, for running the definitions *)

Module Sample.

Definition extAddress : otExtAddress :=
  [Byte.x02; Byte.x00; Byte.x00; Byte.x00; Byte.x00; Byte.x00; Byte.x00; Byte.x01].

Definition router (rloc16 : Z) (rss : Z) : Router :=
  {| mExtAddress := extAddress;
     mRloc16 := rloc16;
     mNextHop := 1;
     mCost := 2;
     mLinkInfo := {| Neighbor.mAverageRss := rss;
                     Neighbor.mLastRss := rss;
                     Neighbor.mLinkQuality := 3 |};
     mLinkQualityOut := 3;
     mLastHeard := 5000;
     mState := Neighbor.kStateValid |}.

Definition leaderData : Mle.LeaderData :=
  {| Mle.mPartitionId := 305419896;
     Mle.mWeighting := 64;
     Mle.mDataVersion := 7;
     Mle.mStableDataVersion := 5;
     Mle.mLeaderRouterId := 9 |}.

Definition table : NeighborTable.NeighborTable :=
  [None; Some (router 1024 (-60)); None; Some (router 2048 (-70)); Some (router 3072 (-80))].

Definition device (role : Mle.DeviceRole) (parent : Router) : Instance :=
  {| mMleRouter := {| Mle.mRole := role;
                      Mle.mLeaderData := leaderData;
                      Mle.mParent := parent;
                      Mle.mMeshLocalPrefix :=
                        [Byte.xfd; Byte.x00; Byte.x0d; Byte.xb8; Byte.x00; Byte.x00; Byte.x00; Byte.x00];
                      Mle.mTimeout := 240 |};
     mMac := {| Mac.mExtendedPanId :=
                  [Byte.xde; Byte.xad; Byte.x00; Byte.xbe; Byte.xef; Byte.x00; Byte.xca; Byte.xfe];
                Mac.mNetworkName := "OpenThread";
                Mac.mDomainName := "DefaultDomain" |};
     mKeyManager := {| KeyManager.mNetworkKey := [Byte.x00; Byte.x11; Byte.x22; Byte.x33];
                       KeyManager.mKeySequence := 41;
                       KeyManager.mKeySwitchGuardTime := 624;
                       KeyManager.mLastRotation := 100 |};
     mActiveDataset := Some [Byte.x0e; Byte.x08];
     mPendingDataset := Some [Byte.x33; Byte.x08];
     mNeighborTable := table |}.

Definition instance (role : Mle.DeviceRole) : Instance := device role (router 1024 (-60)).

Definition routerInfo : RouterInfo.otRouterInfo :=
  {| RouterInfo.mExtAddress := [];
     RouterInfo.mRloc16 := 0;
     RouterInfo.mRouterId := 0;
     RouterInfo.mNextHop := 0;
     RouterInfo.mPathCost := 0;
     RouterInfo.mLinkQualityIn := 0;
     RouterInfo.mLinkQualityOut := 0;
     RouterInfo.mAge := 0;
     RouterInfo.mAllocated := false;
     RouterInfo.mLinkEstablished := false |}.

Definition noLeaderData : Mle.LeaderData :=
  {| Mle.mPartitionId := 0;
     Mle.mWeighting := 0;
     Mle.mDataVersion := 0;
     Mle.mStableDataVersion := 0;
     Mle.mLeaderRouterId := 0 |}.

(** Helpers for the sample: the prefix is 0xfd followed by the first five
    bytes of the extended PAN id and two zero bytes; names longer than 16
    characters are refused; the router id is the top six bits of a short
    address; the sentinel is 127. *)
Definition externals (referenceDevice : bool) : Externals :=
  {| SetFromExtendedPanId := fun x => Byte.xfd :: take 5 x ++ [Byte.x00; Byte.x00];
     Mac_SetNetworkName := Mac.SetNetworkNameBounded 16;
     RouterIdFromRloc16 := fun rloc16 => Z.shiftr rloc16 10;
     MsecToSec := fun ms => ms / 1000;
     OT_RADIO_RSSI_INVALID := 127;
     OPENTHREAD_CONFIG_REFERENCE_DEVICE_ENABLE := referenceDevice |}.

End Sample.

(** ** thread_api.cpp: the calls under build options

    otThreadSetNetworkKeyRef and otThreadGetNetworkKeyRef are compiled
    with OPENTHREAD_CONFIG_PLATFORM_KEY_REFERENCES_ENABLE, the domain name
    calls with Thread 1.2.  The component methods they forward to are
    declared outside thread_api.cpp and are taken as they come: any
    function of the right shape. *)

Class OptionalExternals : Type := {
  (* KeyManager::SetNetworkKeyRef, a void method *)
  KeyManager_SetNetworkKeyRef : Z -> KeyManager.KeyManager -> KeyManager.KeyManager;
  (* KeyManager::GetNetworkKeyRef *)
  KeyManager_GetNetworkKeyRef : KeyManager.KeyManager -> Z;
  (* Mac::SetDomainName, which returns an error code *)
  Mac_SetDomainName : string -> Mac.Mac -> Error * Mac.Mac
}.

Section ThreadApiOptional.

Context `{OptionalExternals}.

Definition otThreadGetNetworkKeyRef : Api Z :=
  Get.KeyManager (Const KeyManager_GetNetworkKeyRef).

(** [aKeyRef] is an otNetworkKeyRef, a 32-bit key identifier; the test
    for zero comes before the test of the role. *)
Definition otThreadSetNetworkKeyRef (aKeyRef : Z) : Api Error :=
  if negb (aKeyRef =? 0)
  then (disabled <- Get.MleRouter (Const Mle.IsDisabled) ;;
        if disabled : bool
        then (Get.KeyManager (Void (KeyManager_SetNetworkKeyRef aKeyRef)) ;;
              Get.ActiveDataset (Void MeshCoP.Clear) ;;
              Get.PendingDataset (Void MeshCoP.Clear) ;;
              ret kErrorNone)
        else ret kErrorInvalidState)
  else ret kErrorInvalidArgs.

Definition otThreadGetDomainName : Api string :=
  Get.Mac (Const Mac.GetDomainName).

Definition otThreadSetDomainName (aDomainName : string) : Api Error :=
  disabled <- Get.MleRouter (Const Mle.IsDisabled) ;;
  if disabled : bool
  then (error <- Get.Mac (Mac_SetDomainName aDomainName) ;;
        ret error)
  else ret kErrorInvalidState.

End ThreadApiOptional.

(** Sample helpers for the calls above: installing a key reference drops
    the literal key; domain names longer than 16 characters are refused. *)
Module SampleOptional.

Definition SetDomainNameBounded (maxLen : nat) (name : string) (m : Mac.Mac)
    : Error * Mac.Mac :=
  if (maxLen <? String.length name)%nat
  then (kErrorInvalidArgs, m)
  else (kErrorNone,
        {| Mac.mExtendedPanId := Mac.mExtendedPanId m;
           Mac.mNetworkName := Mac.mNetworkName m;
           Mac.mDomainName := name |}).

Definition externals : OptionalExternals :=
  {| KeyManager_SetNetworkKeyRef := fun _ k => KeyManager.SetNetworkKey [] k;
     KeyManager_GetNetworkKeyRef := fun _ => 0;
     Mac_SetDomainName := SetDomainNameBounded 16 |}.

End SampleOptional.

(** * Properties *)

Create HintDb api discriminated.

#[global] Hint Unfold
  CallIdentitySetter
  otThreadGetExtendedPanId otThreadSetExtendedPanId
  otThreadGetNetworkKey otThreadSetNetworkKey
  otThreadGetMeshLocalPrefix otThreadSetMeshLocalPrefix
  otThreadGetNetworkName otThreadSetNetworkName
  otThreadGetKeySequenceCounter otThreadSetKeySequenceCounter
  otThreadGetKeySwitchGuardTime otThreadSetKeySwitchGuardTime
  otThreadGetNextNeighborInfo otThreadGetDeviceRole
  otThreadGetLeaderData otThreadGetLeaderRouterId otThreadGetLeaderWeight
  otThreadGetPartitionId otThreadGetParentInfo otThreadGetParentAverageRssi
  otThreadSetEnabled MleRouter.Start MleRouter.Stop
  bind ret Const Void
  Get.MleRouter Get.Mac Get.KeyManager Get.ActiveDataset Get.PendingDataset
  Get.NeighborTable : api.

(** Run an API call symbolically on an instance given field by field. *)
Ltac run_api := autounfold with api; cbn.

(** Split an instance down to the role. *)
Ltac open_instance i :=
  let mle := fresh "mle" in
  destruct i as [mle ? ? ? ? ?]; destruct mle as [? ? ? ? ?]; cbn in *.

Section Properties.

Context `{Externals}.

Lemma IsDisabled_role (m : Mle.MleRouter) :
  Mle.IsDisabled m = true <-> Mle.GetRole m = Mle.kRoleDisabled.
Proof.
  unfold Mle.IsDisabled, Mle.GetRole.
  destruct (Mle.mRole m); split; intros E; try reflexivity; discriminate E.
Qed.

Lemma IsAttached_role (m : Mle.MleRouter) :
  Mle.IsAttached m = true <->
  Mle.GetRole m = Mle.kRoleChild \/ Mle.GetRole m = Mle.kRoleRouter
  \/ Mle.GetRole m = Mle.kRoleLeader.
Proof.
  unfold Mle.IsAttached, Mle.IsChild, Mle.IsRouter, Mle.IsLeader, Mle.GetRole.
  destruct (Mle.mRole m); cbn; split; intros E; auto;
    try discriminate E; destruct E as [E | [E | E]]; discriminate E.
Qed.

(** A guarded setter leaves the instance alone when the role is not
    Disabled. *)
Lemma setter_refused (s : IdentitySetter) (i : Instance) :
  Mle.IsDisabled (mMleRouter i) = false ->
  CallIdentitySetter s i = (kErrorInvalidState, i).
Proof.
  intros Hrole. destruct s; run_api; rewrite Hrole; destruct i; reflexivity.
Qed.

(** A guarded setter that passes the guard ends with both datasets
    cleared, whatever the component setters did before. *)
Lemma setter_accepted_clears (s : IdentitySetter) (i : Instance) :
  Mle.IsDisabled (mMleRouter i) = true ->
  let i' := snd (CallIdentitySetter s i) in
  mActiveDataset i' = None /\ mPendingDataset i' = None.
Proof.
  intros Hrole. destruct s; run_api; rewrite Hrole; cbn.
  1, 2, 4: split; reflexivity.
  destruct (Mac_SetNetworkName aNetworkName (mMac i)); cbn. split; reflexivity.
Qed.

(** C1: every identity setter (SetExtendedPanId, SetNetworkKey,
    SetNetworkName, SetMeshLocalPrefix), called while the role is not
    Disabled, returns InvalidState; the four identity attributes read back
    as before the call, and so does the rest of the instance. *)
Theorem identity_setter_invalid_state (s : IdentitySetter) (i : Instance) :
  Mle.GetRole (mMleRouter i) <> Mle.kRoleDisabled ->
  let r := CallIdentitySetter s i in
  fst r = kErrorInvalidState
  /\ fst (otThreadGetExtendedPanId (snd r)) = fst (otThreadGetExtendedPanId i)
  /\ fst (otThreadGetNetworkKey (snd r)) = fst (otThreadGetNetworkKey i)
  /\ fst (otThreadGetNetworkName (snd r)) = fst (otThreadGetNetworkName i)
  /\ fst (otThreadGetMeshLocalPrefix (snd r)) = fst (otThreadGetMeshLocalPrefix i)
  /\ snd r = i.
Proof.
  intros Hrole r.
  assert (Hguard : Mle.IsDisabled (mMleRouter i) = false).
  { destruct (Mle.IsDisabled (mMleRouter i)) eqn:E; [| reflexivity].
    apply IsDisabled_role in E. contradiction. }
  subst r. rewrite (setter_refused s i Hguard). cbn. repeat split; reflexivity.
Qed.

(** C2: GetLeaderData returns Detached exactly when the role is Disabled
    or Detached; for Child, Router and Leader it returns success and the
    caller's record holds the stored leader data. *)
Theorem get_leader_data_attached_only (aLeaderData : Mle.LeaderData) (i : Instance) :
  let role := Mle.GetRole (mMleRouter i) in
  let r := otThreadGetLeaderData aLeaderData i in
  (fst (fst r) = kErrorDetached <->
   role = Mle.kRoleDisabled \/ role = Mle.kRoleDetached)
  /\ (role = Mle.kRoleChild \/ role = Mle.kRoleRouter \/ role = Mle.kRoleLeader ->
      fst r = (kErrorNone, Mle.mLeaderData (mMleRouter i))).
Proof.
  open_instance i. run_api.
  unfold Mle.IsAttached, Mle.IsChild, Mle.IsRouter, Mle.IsLeader, Mle.GetRole; cbn.
  destruct mRole; cbn; repeat split; auto; intros E;
    try discriminate E;
    repeat match goal with
           | E : _ \/ _ |- _ => destruct E as [E | E]
           end; discriminate E.
Qed.

(** C3: without the reference-device flag, GetParentInfo returns
    InvalidState for every role other than Child; for Child it returns
    success and the record's mRloc16 is the parent record's RLOC16. *)
Theorem get_parent_info_child_only (now : Z) (aParentInfo : RouterInfo.otRouterInfo)
    (i : Instance) :
  OPENTHREAD_CONFIG_REFERENCE_DEVICE_ENABLE = false ->
  let role := Mle.GetRole (mMleRouter i) in
  let r := otThreadGetParentInfo now aParentInfo i in
  (role <> Mle.kRoleChild -> fst (fst r) = kErrorInvalidState)
  /\ (role = Mle.kRoleChild ->
      fst (fst r) = kErrorNone
      /\ RouterInfo.mRloc16 (snd (fst r)) = mRloc16 (Mle.GetParent (mMleRouter i))).
Proof.
  intros Hflag. open_instance i. run_api. rewrite Hflag. cbn.
  unfold Mle.IsChild, Mle.GetRole; cbn.
  destruct mRole; cbn; split; intros E; try discriminate E;
    try contradiction; try reflexivity; split; reflexivity.
Qed.

(** C4: GetLeaderRouterId, GetLeaderWeight and GetPartitionId have no
    error result: for every instance, whatever its role, each returns the
    stored value; GetLeaderData on the same instance returns Detached, and
    leaves the caller's record alone, when the role is Disabled or
    Detached. *)
Theorem leader_projections_never_fail (i : Instance) :
  let stored := Mle.mLeaderData (mMleRouter i) in
  fst (otThreadGetLeaderRouterId i) = Mle.mLeaderRouterId stored
  /\ fst (otThreadGetLeaderWeight i) = Mle.mWeighting stored
  /\ fst (otThreadGetPartitionId i) = Mle.mPartitionId stored
  /\ (Mle.GetRole (mMleRouter i) = Mle.kRoleDisabled
      \/ Mle.GetRole (mMleRouter i) = Mle.kRoleDetached ->
      forall aLeaderData : Mle.LeaderData,
        fst (otThreadGetLeaderData aLeaderData i) = (kErrorDetached, aLeaderData)).
Proof.
  open_instance i. run_api. repeat split.
  intros Hrole aLeaderData. unfold Mle.GetRole in Hrole; cbn in Hrole.
  unfold Mle.IsAttached, Mle.IsChild, Mle.IsRouter, Mle.IsLeader; cbn.
  destruct Hrole as [-> | ->]; reflexivity.
Qed.

(** C5: when an identity setter (SetExtendedPanId, SetNetworkKey,
    SetNetworkName, SetMeshLocalPrefix) returns success, the active and
    the pending operational dataset are both cleared after the call. *)
Theorem identity_setter_success_clears_datasets (s : IdentitySetter) (i : Instance) :
  fst (CallIdentitySetter s i) = kErrorNone ->
  MeshCoP.IsCleared (mActiveDataset (snd (CallIdentitySetter s i)))
  /\ MeshCoP.IsCleared (mPendingDataset (snd (CallIdentitySetter s i))).
Proof.
  intros Hok. unfold MeshCoP.IsCleared.
  destruct (Mle.IsDisabled (mMleRouter i)) eqn:Hguard.
  - exact (setter_accepted_clears s i Hguard).
  - rewrite (setter_refused s i Hguard) in Hok. discriminate Hok.
Qed.

(** C6: while the role is Disabled, otThreadSetNetworkName returns
    whatever error Mac::SetNetworkName returned, a failure included, and
    in every case the active and the pending dataset are cleared after the
    call. *)
Theorem set_network_name_clears_even_on_failure (aNetworkName : string) (i : Instance) :
  Mle.GetRole (mMleRouter i) = Mle.kRoleDisabled ->
  let r := otThreadSetNetworkName aNetworkName i in
  fst r = fst (Mac_SetNetworkName aNetworkName (mMac i))
  /\ mMac (snd r) = snd (Mac_SetNetworkName aNetworkName (mMac i))
  /\ MeshCoP.IsCleared (mActiveDataset (snd r))
  /\ MeshCoP.IsCleared (mPendingDataset (snd r)).
Proof.
  intros Hrole. apply IsDisabled_role in Hrole.
  run_api. rewrite Hrole. cbn.
  destruct (Mac_SetNetworkName aNetworkName (mMac i)) as [error mac]; cbn.
  unfold MeshCoP.IsCleared. repeat split; reflexivity.
Qed.

(** C10: GetParentAverageRssi returns Failed exactly when the parent's
    stored average RSSI is the invalid sentinel; in every other case it
    returns success; in both cases the caller receives the stored value
    and the instance after the call is the instance before it. *)
Theorem get_parent_average_rssi_pure (i : Instance) :
  let stored := Neighbor.mAverageRss (mLinkInfo (Mle.mParent (mMleRouter i))) in
  let r := otThreadGetParentAverageRssi i in
  (fst (fst r) = kErrorFailed <-> stored = OT_RADIO_RSSI_INVALID)
  /\ (stored <> OT_RADIO_RSSI_INVALID -> fst (fst r) = kErrorNone)
  /\ snd (fst r) = stored
  /\ snd r = i.
Proof.
  open_instance i. run_api.
  unfold Neighbor.GetAverageRss, RouterOps.GetLinkInfo, Mle.GetParent; cbn.
  destruct (Z.eqb_spec (Neighbor.mAverageRss (mLinkInfo mParent)) OT_RADIO_RSSI_INVALID)
    as [E | E]; cbn; repeat split; auto; intros E'; try discriminate E'; contradiction.
Qed.

(** X6: With the reference-device flag set the role check is compiled out:
    GetParentInfo returns success and the stored parent's RLOC16 in every
    role, so the flag's absence is needed in the statement above. *)
Lemma get_parent_info_reference_device (now : Z) (aParentInfo : RouterInfo.otRouterInfo)
    (i : Instance) :
  OPENTHREAD_CONFIG_REFERENCE_DEVICE_ENABLE = true ->
  fst (fst (otThreadGetParentInfo now aParentInfo i)) = kErrorNone
  /\ RouterInfo.mRloc16 (snd (fst (otThreadGetParentInfo now aParentInfo i)))
     = mRloc16 (Mle.GetParent (mMleRouter i)).
Proof.
  intros Hflag. open_instance i. run_api. rewrite Hflag. cbn. split; reflexivity.
Qed.

(** The scenario of section 8: after SetEnabled(false), SetExtendedPanId
    succeeds, the extended PAN id reads back and the mesh-local prefix is
    the one derived from it. *)
Lemma set_extended_pan_id_after_stop (aExtendedPanId : otExtendedPanId) (i : Instance) :
  let stopped := snd (otThreadSetEnabled false i) in
  let r := otThreadSetExtendedPanId aExtendedPanId stopped in
  fst r = kErrorNone
  /\ fst (otThreadGetExtendedPanId (snd r)) = aExtendedPanId
  /\ fst (otThreadGetMeshLocalPrefix (snd r)) = SetFromExtendedPanId aExtendedPanId.
Proof.
  open_instance i. run_api. repeat split.
Qed.

End Properties.

(** ** Key sequence and guard time *)

Lemma AutomaticRotation_refused (now : Z) (k : KeyManager.KeyManager) :
  now < KeyManager.mLastRotation k + KeyManager.mKeySwitchGuardTime k ->
  KeyManager.AutomaticRotation now k = k.
Proof.
  intros Hearly. unfold KeyManager.AutomaticRotation.
  destruct (Z.leb_spec (KeyManager.mLastRotation k + KeyManager.mKeySwitchGuardTime k) now);
    [lia | reflexivity].
Qed.

Lemma AutomaticRotation_due (now : Z) (k : KeyManager.KeyManager) :
  KeyManager.mLastRotation k + KeyManager.mKeySwitchGuardTime k <= now ->
  KeyManager.mKeySequence (KeyManager.AutomaticRotation now k)
  = (KeyManager.mKeySequence k + 1) mod 2 ^ 32
  /\ KeyManager.mLastRotation (KeyManager.AutomaticRotation now k) = now.
Proof.
  intros Hdue. unfold KeyManager.AutomaticRotation.
  destruct (Z.leb_spec (KeyManager.mLastRotation k + KeyManager.mKeySwitchGuardTime k) now);
    [split; reflexivity | lia].
Qed.

Lemma AutomaticRotations_refused (hours : list Z) (k : KeyManager.KeyManager) :
  Forall (fun now => now < KeyManager.mLastRotation k + KeyManager.mKeySwitchGuardTime k)
         hours ->
  AutomaticRotations hours k = k.
Proof.
  unfold AutomaticRotations. induction 1 as [| now hours Hnow _ IH]; cbn.
  - reflexivity.
  - rewrite (AutomaticRotation_refused now k Hnow). exact IH.
Qed.

(** C7: SetKeySequenceCounter has no error result and no guard: for every
    instance, whatever its role, guard time and hour of last rotation, the
    key sequence read back after the call is the given value, and role,
    guard time and hour of last rotation are as before.  The guard acts on
    the automatic rotation only: with guard G and last rotation at hour T,
    attempts at hours before T+G leave the key manager as it is. *)
Theorem set_key_sequence_counter_bypasses_guard (aKeySequenceCounter : Z) (i : Instance) :
  let i' := snd (otThreadSetKeySequenceCounter aKeySequenceCounter i) in
  let T := KeyManager.mLastRotation (mKeyManager i) in
  let G := KeyManager.mKeySwitchGuardTime (mKeyManager i) in
  fst (otThreadGetKeySequenceCounter i') = aKeySequenceCounter
  /\ Mle.GetRole (mMleRouter i') = Mle.GetRole (mMleRouter i)
  /\ fst (otThreadGetKeySwitchGuardTime i') = G
  /\ KeyManager.mLastRotation (mKeyManager i') = T
  /\ (forall hours : list Z,
        Forall (fun now => now < T + G) hours ->
        AutomaticRotations hours (mKeyManager i) = mKeyManager i).
Proof.
  cbn zeta. repeat split.
  intros hours Hearly. apply AutomaticRotations_refused. exact Hearly.
Qed.

(** ** Start and Stop *)

Lemma PresentFrom_Clear (index : nat) (t : NeighborTable.NeighborTable) :
  NeighborTable.PresentFrom index (NeighborTable.Clear t) = [].
Proof.
  revert index. induction t as [| slot t IH]; intros index; cbn.
  - reflexivity.
  - apply IH.
Qed.

Lemma Clear_idempotent (t : NeighborTable.NeighborTable) :
  NeighborTable.Clear (NeighborTable.Clear t) = NeighborTable.Clear t.
Proof.
  unfold NeighborTable.Clear. rewrite map_map. reflexivity.
Qed.

(** C8: SetEnabled(true) on a Disabled device succeeds and leaves the role
    Detached; on a device in any other role it returns InvalidState (and
    changes nothing).  SetEnabled(false) succeeds from every state and
    leaves the role Disabled, no present record in the neighbor table and
    the parent record released; a second SetEnabled(false) succeeds and
    leaves the instance as the first one left it. *)
Theorem set_enabled_start_stop (i : Instance) :
  (Mle.GetRole (mMleRouter i) = Mle.kRoleDisabled ->
   fst (otThreadSetEnabled true i) = kErrorNone
   /\ Mle.GetRole (mMleRouter (snd (otThreadSetEnabled true i))) = Mle.kRoleDetached)
  /\ (Mle.GetRole (mMleRouter i) <> Mle.kRoleDisabled ->
      otThreadSetEnabled true i = (kErrorInvalidState, i))
  /\ (let stopped := snd (otThreadSetEnabled false i) in
      fst (otThreadSetEnabled false i) = kErrorNone
      /\ Mle.GetRole (mMleRouter stopped) = Mle.kRoleDisabled
      /\ NeighborTable.Present (mNeighborTable stopped) = []
      /\ RouterOps.IsStateValid (Mle.GetParent (mMleRouter stopped)) = false
      /\ otThreadSetEnabled false stopped = (kErrorNone, stopped)).
Proof.
  open_instance i. unfold Mle.GetRole; cbn. split; [| split].
  - intros ->. split; reflexivity.
  - intros Hrole. run_api. unfold Mle.IsDisabled; cbn.
    destruct mRole; try reflexivity. contradiction.
  - run_api. unfold NeighborTable.Present. rewrite PresentFrom_Clear.
    rewrite Clear_idempotent. repeat split.
Qed.

(** ** Enumeration of the neighbor table *)

Lemma otThreadGetNextNeighborInfo_eval (aIterator : NeighborTable.otNeighborInfoIterator)
    (aInfo : Router) (i : Instance) :
  otThreadGetNextNeighborInfo aIterator aInfo i
  = (NeighborTable.GetNextNeighborInfo aIterator aInfo (mNeighborTable i), i).
Proof. destruct i; reflexivity. Qed.

(** What the scan finds is the head of the present records; the tail
    starts after the slot found. *)
Lemma FindLive_PresentFrom (slots : list (option Router)) (k : nat) :
  match NeighborTable.FindLive slots k with
  | Some (j, r) =>
      (k <= j)%nat
      /\ NeighborTable.PresentFrom k slots
         = (S j, r) :: NeighborTable.PresentFrom (S j) (drop (S (j - k)) slots)
  | None => NeighborTable.PresentFrom k slots = []
  end.
Proof.
  revert k. induction slots as [| [r |] rest IH]; intros k; cbn.
  - reflexivity.
  - split; [lia |]. replace (k - k)%nat with 0%nat by lia. reflexivity.
  - specialize (IH (S k)).
    destruct (NeighborTable.FindLive rest (S k)) as [[j r] |]; [| exact IH].
    destruct IH as [Hle IH]. split; [lia |].
    rewrite IH. replace (j - k)%nat with (S (j - S k)) by lia. reflexivity.
Qed.

Lemma PresentFrom_elem (k : nat) (slots : list (option Router)) (c : nat) (r : Router) :
  (c, r) ∈ NeighborTable.PresentFrom k slots
  <-> exists idx : nat, c = S (k + idx) /\ slots !! idx = Some (Some r).
Proof.
  revert k. induction slots as [| [r' |] rest IH]; intros k; cbn.
  - rewrite elem_of_nil. split; [tauto |]. intros [idx [_ E]]. discriminate E.
  - rewrite elem_of_cons, IH. split.
    + intros [E | [idx [-> E]]].
      * injection E as -> ->. exists 0%nat. split; [lia | reflexivity].
      * exists (S idx). split; [lia | exact E].
    + intros [[| idx] [-> E]]; cbn in E.
      * left. injection E as ->. f_equal. lia.
      * right. exists idx. split; [lia | exact E].
  - rewrite IH. split.
    + intros [idx [-> E]]. exists (S idx). split; [lia | exact E].
    + intros [[| idx] [-> E]]; cbn in E; [discriminate E |].
      exists idx. split; [lia | exact E].
Qed.

Lemma PresentFrom_NoDup (k : nat) (slots : list (option Router)) :
  NoDup (map fst (NeighborTable.PresentFrom k slots)).
Proof.
  revert k. induction slots as [| [r |] rest IH]; intros k; cbn.
  - constructor.
  - constructor; [| apply IH].
    intros Hin. apply list_elem_of_fmap in Hin as [[c r'] [Hc Hin]]. cbn in Hc. subst c.
    apply PresentFrom_elem in Hin as [idx [Hc _]]. lia.
  - apply IH.
Qed.

Lemma PresentFrom_length (k : nat) (slots : list (option Router)) :
  (length (NeighborTable.PresentFrom k slots) <= length slots)%nat.
Proof.
  revert k. induction slots as [| [r |] rest IH]; intros k; cbn.
  - lia.
  - specialize (IH (S k)). lia.
  - specialize (IH (S k)). lia.
Qed.

(** A pass that starts at cursor [k] yields the present records of the
    slots from [k] on, given one call more than there are such records. *)
Lemma EnumerateNeighbors_from (fuel : nat) :
  forall (k : nat) (aInfo : Router) (i : Instance),
    (length (NeighborTable.PresentFrom k (drop k (mNeighborTable i))) < fuel)%nat ->
    EnumerateNeighbors fuel k aInfo i
    = (Some (NeighborTable.PresentFrom k (drop k (mNeighborTable i))), i).
Proof.
  induction fuel as [| fuel IH]; intros k aInfo i Hfuel; [lia |].
  cbn [EnumerateNeighbors]. unfold bind at 1.
  rewrite otThreadGetNextNeighborInfo_eval. unfold NeighborTable.GetNextNeighborInfo.
  pose proof (FindLive_PresentFrom (drop k (mNeighborTable i)) k) as Hscan.
  destruct (NeighborTable.FindLive (drop k (mNeighborTable i)) k) as [[j r] |].
  - destruct Hscan as [Hle Hscan].
    rewrite drop_drop in Hscan.
    replace (k + S (j - k))%nat with (S j) in Hscan by lia.
    rewrite Hscan in Hfuel |- *. cbn in Hfuel.
    unfold bind. rewrite IH by lia. reflexivity.
  - rewrite Hscan. reflexivity.
Qed.

(** C9: for every table, one enumeration pass from the fresh iterator
    ends with the end-of-table signal within one call more than there are
    present records (at most one more than the capacity); it yields the
    present records in slot order, no slot twice, and a record is yielded
    exactly when its slot holds it; the table is not changed. *)
Theorem neighbor_enumeration_exactly_once (fuel : nat) (aInfo : Router) (i : Instance) :
  let t := mNeighborTable i in
  (length (NeighborTable.Present t) < fuel)%nat ->
  EnumerateNeighbors fuel NeighborTable.OT_NEIGHBOR_INFO_ITERATOR_INIT aInfo i
  = (Some (NeighborTable.Present t), i)
  /\ NoDup (map fst (NeighborTable.Present t))
  /\ (forall (idx : nat) (r : Router),
        t !! idx = Some (Some r) <-> (S idx, r) ∈ NeighborTable.Present t)
  /\ (length (NeighborTable.Present t) <= length t)%nat.
Proof.
  intros t Hfuel. unfold NeighborTable.Present in *. repeat split.
  - unfold NeighborTable.OT_NEIGHBOR_INFO_ITERATOR_INIT.
    rewrite (EnumerateNeighbors_from fuel 0 aInfo i); rewrite drop_0; [reflexivity | exact Hfuel].
  - apply PresentFrom_NoDup.
  - intros Hslot. apply PresentFrom_elem. exists idx. split; [reflexivity | exact Hslot].
  - intros Hin. apply PresentFrom_elem in Hin as [idx' [Hidx Hslot]].
    cbn in Hidx. injection Hidx as ->. exact Hslot.
  - apply PresentFrom_length.
Qed.

(** * The statements at the sample device *)

Lemma identity_setter_invalid_state_witness :
  Mle.GetRole (mMleRouter (Sample.instance Mle.kRoleChild)) <> Mle.kRoleDisabled
  /\ @CallIdentitySetter (Sample.externals false) (IdNetworkName "NewName")
       (Sample.instance Mle.kRoleChild)
     = (kErrorInvalidState, Sample.instance Mle.kRoleChild).
Proof.
  assert (Hrole : Mle.GetRole (mMleRouter (Sample.instance Mle.kRoleChild))
                  <> Mle.kRoleDisabled) by discriminate.
  split; [exact Hrole |].
  destruct (@identity_setter_invalid_state (Sample.externals false)
              (IdNetworkName "NewName") (Sample.instance Mle.kRoleChild) Hrole)
    as (Herr & _ & _ & _ & _ & Hsame).
  apply injective_projections; [exact Herr | exact Hsame].
Defined.

Lemma get_leader_data_attached_only_witness :
  fst (otThreadGetLeaderData Sample.noLeaderData (Sample.instance Mle.kRoleRouter))
  = (kErrorNone, Sample.leaderData)
  /\ fst (fst (otThreadGetLeaderData Sample.noLeaderData (Sample.instance Mle.kRoleDetached)))
     = kErrorDetached.
Proof.
  split.
  - apply (get_leader_data_attached_only Sample.noLeaderData (Sample.instance Mle.kRoleRouter)).
    right; left; reflexivity.
  - apply (get_leader_data_attached_only Sample.noLeaderData (Sample.instance Mle.kRoleDetached)).
    right; reflexivity.
Defined.

Lemma get_parent_info_child_only_witness :
  @OPENTHREAD_CONFIG_REFERENCE_DEVICE_ENABLE (Sample.externals false) = false
  /\ fst (fst (@otThreadGetParentInfo (Sample.externals false) 70000 Sample.routerInfo
                 (Sample.instance Mle.kRoleChild))) = kErrorNone
  /\ RouterInfo.mRloc16
       (snd (fst (@otThreadGetParentInfo (Sample.externals false) 70000 Sample.routerInfo
                    (Sample.instance Mle.kRoleChild)))) = 1024
  /\ fst (fst (@otThreadGetParentInfo (Sample.externals false) 70000 Sample.routerInfo
                 (Sample.instance Mle.kRoleRouter))) = kErrorInvalidState.
Proof.
  split; [reflexivity |].
  destruct (@get_parent_info_child_only (Sample.externals false) 70000 Sample.routerInfo
              (Sample.instance Mle.kRoleChild) eq_refl) as [_ Hchild].
  destruct (Hchild eq_refl) as [Hok Hrloc].
  destruct (@get_parent_info_child_only (Sample.externals false) 70000 Sample.routerInfo
              (Sample.instance Mle.kRoleRouter) eq_refl) as [Hother _].
  split; [exact Hok |]. split; [exact Hrloc |]. apply Hother. discriminate.
Defined.

Lemma leader_projections_never_fail_witness :
  fst (otThreadGetLeaderRouterId (Sample.instance Mle.kRoleDetached)) = 9
  /\ fst (otThreadGetLeaderData Sample.noLeaderData (Sample.instance Mle.kRoleDetached))
     = (kErrorDetached, Sample.noLeaderData).
Proof.
  destruct (leader_projections_never_fail (Sample.instance Mle.kRoleDetached))
    as (Hid & _ & _ & Hdata).
  split; [exact Hid |].
  apply Hdata. right; reflexivity.
Defined.

Lemma identity_setter_success_clears_datasets_witness :
  mActiveDataset (Sample.instance Mle.kRoleDisabled) = Some [Byte.x0e; Byte.x08]
  /\ fst (@CallIdentitySetter (Sample.externals false)
            (IdMeshLocalPrefix (repeat Byte.xfd 8)) (Sample.instance Mle.kRoleDisabled))
     = kErrorNone
  /\ mActiveDataset
       (snd (@CallIdentitySetter (Sample.externals false)
               (IdMeshLocalPrefix (repeat Byte.xfd 8)) (Sample.instance Mle.kRoleDisabled)))
     = None
  /\ mPendingDataset
       (snd (@CallIdentitySetter (Sample.externals false)
               (IdMeshLocalPrefix (repeat Byte.xfd 8)) (Sample.instance Mle.kRoleDisabled)))
     = None.
Proof.
  split; [reflexivity |]. split; [reflexivity |].
  apply (@identity_setter_success_clears_datasets (Sample.externals false)
           (IdMeshLocalPrefix (repeat Byte.xfd 8)) (Sample.instance Mle.kRoleDisabled)).
  reflexivity.
Defined.

Lemma set_network_name_clears_even_on_failure_witness :
  Mle.GetRole (mMleRouter (Sample.instance Mle.kRoleDisabled)) = Mle.kRoleDisabled
  /\ fst (@otThreadSetNetworkName (Sample.externals false) "ANameOfSeventeen!"
            (Sample.instance Mle.kRoleDisabled)) = kErrorInvalidArgs
  /\ MeshCoP.IsCleared
       (mActiveDataset
          (snd (@otThreadSetNetworkName (Sample.externals false) "ANameOfSeventeen!"
                  (Sample.instance Mle.kRoleDisabled))))
  /\ MeshCoP.IsCleared
       (mPendingDataset
          (snd (@otThreadSetNetworkName (Sample.externals false) "ANameOfSeventeen!"
                  (Sample.instance Mle.kRoleDisabled)))).
Proof.
  split; [reflexivity |].
  destruct (@set_network_name_clears_even_on_failure (Sample.externals false)
              "ANameOfSeventeen!" (Sample.instance Mle.kRoleDisabled) eq_refl)
    as (Herr & _ & Hactive & Hpending).
  split; [exact Herr |]. split; [exact Hactive | exact Hpending].
Defined.

Lemma set_key_sequence_counter_bypasses_guard_witness :
  fst (otThreadGetKeySequenceCounter
         (snd (otThreadSetKeySequenceCounter 42 (Sample.instance Mle.kRoleChild)))) = 42
  /\ Forall (fun now => now < 100 + 624) [101; 500; 723]
  /\ AutomaticRotations [101; 500; 723] (mKeyManager (Sample.instance Mle.kRoleChild))
     = mKeyManager (Sample.instance Mle.kRoleChild).
Proof.
  assert (Hearly : Forall (fun now => now < 100 + 624) [101; 500; 723])
    by (repeat constructor).
  destruct (set_key_sequence_counter_bypasses_guard 42 (Sample.instance Mle.kRoleChild))
    as (Hseq & _ & _ & _ & Hguard).
  split; [exact Hseq |]. split; [exact Hearly |].
  apply Hguard. exact Hearly.
Defined.

Lemma set_enabled_start_stop_witness :
  Mle.GetRole (mMleRouter (snd (otThreadSetEnabled true (Sample.instance Mle.kRoleDisabled))))
  = Mle.kRoleDetached
  /\ otThreadSetEnabled true (Sample.instance Mle.kRoleChild)
     = (kErrorInvalidState, Sample.instance Mle.kRoleChild)
  /\ Mle.GetRole (mMleRouter (snd (otThreadSetEnabled false (Sample.instance Mle.kRoleChild))))
     = Mle.kRoleDisabled.
Proof.
  destruct (set_enabled_start_stop (Sample.instance Mle.kRoleDisabled)) as (Hstart & _ & _).
  destruct (set_enabled_start_stop (Sample.instance Mle.kRoleChild))
    as (_ & Hstarted & _ & Hstop & _).
  split; [apply Hstart; reflexivity |].
  split; [apply Hstarted; discriminate | exact Hstop].
Defined.

Lemma neighbor_enumeration_exactly_once_witness :
  (length (NeighborTable.Present (mNeighborTable (Sample.instance Mle.kRoleChild))) < 4)%nat
  /\ fst (EnumerateNeighbors 4 NeighborTable.OT_NEIGHBOR_INFO_ITERATOR_INIT
            (Sample.router 0 0) (Sample.instance Mle.kRoleChild))
     = Some [(2%nat, Sample.router 1024 (-60));
             (4%nat, Sample.router 2048 (-70));
             (5%nat, Sample.router 3072 (-80))].
Proof.
  assert (Hfuel : (length (NeighborTable.Present
                             (mNeighborTable (Sample.instance Mle.kRoleChild))) < 4)%nat)
    by (cbn; lia).
  split; [exact Hfuel |].
  destruct (neighbor_enumeration_exactly_once 4 (Sample.router 0 0)
              (Sample.instance Mle.kRoleChild) Hfuel) as (Hpass & _).
  rewrite Hpass. reflexivity.
Defined.

Lemma get_parent_average_rssi_pure_witness :
  @otThreadGetParentAverageRssi (Sample.externals false) (Sample.instance Mle.kRoleChild)
  = (kErrorNone, -60, Sample.instance Mle.kRoleChild)
  /\ fst (fst (@otThreadGetParentAverageRssi (Sample.externals false)
                 (Sample.device Mle.kRoleChild (Sample.router 1024 127)))) = kErrorFailed.
Proof.
  destruct (@get_parent_average_rssi_pure (Sample.externals false)
              (Sample.instance Mle.kRoleChild)) as (_ & Hok & Hvalue & Hsame).
  destruct (@get_parent_average_rssi_pure (Sample.externals false)
              (Sample.device Mle.kRoleChild (Sample.router 1024 127))) as (Hfailed & _).
  split.
  - apply injective_projections; [| exact Hsame].
    apply injective_projections; [apply Hok; discriminate | exact Hvalue].
  - apply Hfailed. reflexivity.
Defined.

(** * Further properties of thread_api.cpp *)

#[global] Hint Unfold
  otThreadGetNetworkKeyRef otThreadSetNetworkKeyRef
  otThreadGetDomainName otThreadSetDomainName
  otThreadGetParentLastRssi : api.

Section MoreProperties.

Context `{Externals} `{OptionalExternals}.

Lemma IsDisabled_false_role (m : Mle.MleRouter) :
  Mle.IsDisabled m = false <-> Mle.GetRole m <> Mle.kRoleDisabled.
Proof.
  unfold Mle.IsDisabled, Mle.GetRole.
  destruct (Mle.mRole m); split; intros E; try reflexivity; try discriminate;
    try contradiction; try discriminate E.
Qed.

(** otThreadSetNetworkKeyRef, case by case. *)
Lemma otThreadSetNetworkKeyRef_eval (aKeyRef : Z) (i : Instance) :
  otThreadSetNetworkKeyRef aKeyRef i
  = if aKeyRef =? 0
    then (kErrorInvalidArgs, i)
    else if Mle.IsDisabled (mMleRouter i)
         then (kErrorNone,
               {| mMleRouter := mMleRouter i;
                  mMac := mMac i;
                  mKeyManager := KeyManager_SetNetworkKeyRef aKeyRef (mKeyManager i);
                  mActiveDataset := None;
                  mPendingDataset := None;
                  mNeighborTable := mNeighborTable i |})
         else (kErrorInvalidState, i).
Proof.
  unfold otThreadSetNetworkKeyRef.
  destruct (aKeyRef =? 0); cbn [negb]; [reflexivity |].
  run_api. destruct (Mle.IsDisabled (mMleRouter i)); destruct i; reflexivity.
Qed.

(** X1: otThreadSetNetworkKeyRef: a zero key reference is refused with
    InvalidArgs in every role, Disabled or not (the argument is tested
    before the role); a non-zero reference is refused with InvalidState
    unless the role is Disabled.  A refused call changes nothing. *)
Theorem set_network_key_ref_error_order (aKeyRef : Z) (i : Instance) :
  (aKeyRef = 0 -> otThreadSetNetworkKeyRef aKeyRef i = (kErrorInvalidArgs, i))
  /\ (aKeyRef <> 0 -> Mle.GetRole (mMleRouter i) <> Mle.kRoleDisabled ->
      otThreadSetNetworkKeyRef aKeyRef i = (kErrorInvalidState, i))
  /\ (fst (otThreadSetNetworkKeyRef aKeyRef i) = kErrorNone <->
      aKeyRef <> 0 /\ Mle.GetRole (mMleRouter i) = Mle.kRoleDisabled).
Proof.
  rewrite otThreadSetNetworkKeyRef_eval.
  destruct (Z.eqb_spec aKeyRef 0) as [Hzero | Hnz].
  - split; [reflexivity |]. split; [contradiction |].
    cbn. split; [discriminate | intros [Hnz _]; contradiction].
  - split; [contradiction |].
    destruct (Mle.IsDisabled (mMleRouter i)) eqn:Hguard; cbn.
    + assert (Hrole := proj1 (IsDisabled_role _) Hguard).
      split; [intros _ Hne; contradiction | split; auto].
    + assert (Hrole := proj1 (IsDisabled_false_role _) Hguard).
      split; [reflexivity |].
      split; [discriminate | intros [_ Hd]; contradiction].
Qed.

(** X2: otThreadSetNetworkKeyRef, when it succeeds, leaves both
    operational datasets cleared and the key manager as
    KeyManager::SetNetworkKeyRef left it; role, mesh-local prefix, MAC
    state and neighbor table are not touched. *)
Theorem set_network_key_ref_success_effects (aKeyRef : Z) (i : Instance) :
  fst (otThreadSetNetworkKeyRef aKeyRef i) = kErrorNone ->
  let i' := snd (otThreadSetNetworkKeyRef aKeyRef i) in
  MeshCoP.IsCleared (mActiveDataset i')
  /\ MeshCoP.IsCleared (mPendingDataset i')
  /\ mKeyManager i' = KeyManager_SetNetworkKeyRef aKeyRef (mKeyManager i)
  /\ mMleRouter i' = mMleRouter i
  /\ mMac i' = mMac i
  /\ mNeighborTable i' = mNeighborTable i.
Proof.
  rewrite otThreadSetNetworkKeyRef_eval.
  destruct (aKeyRef =? 0); cbn; [discriminate |].
  destruct (Mle.IsDisabled (mMleRouter i)); cbn; [| discriminate].
  intros _. unfold MeshCoP.IsCleared. repeat split.
Qed.

(** X3: otThreadSetDomainName is guarded like the identity setters, but it
    never clears a dataset: after the call, accepted or refused, the
    active and the pending dataset, the key manager and the MLE state are
    as before.  While the role is not Disabled it returns InvalidState and
    changes nothing; while Disabled it returns the error of
    Mac::SetDomainName and leaves the MAC state that method produced. *)
Theorem set_domain_name_keeps_datasets (aDomainName : string) (i : Instance) :
  let r := otThreadSetDomainName aDomainName i in
  mActiveDataset (snd r) = mActiveDataset i
  /\ mPendingDataset (snd r) = mPendingDataset i
  /\ mKeyManager (snd r) = mKeyManager i
  /\ mMleRouter (snd r) = mMleRouter i
  /\ (Mle.GetRole (mMleRouter i) <> Mle.kRoleDisabled -> r = (kErrorInvalidState, i))
  /\ (Mle.GetRole (mMleRouter i) = Mle.kRoleDisabled ->
      fst r = fst (Mac_SetDomainName aDomainName (mMac i))
      /\ mMac (snd r) = snd (Mac_SetDomainName aDomainName (mMac i))).
Proof.
  run_api. destruct (Mle.IsDisabled (mMleRouter i)) eqn:Hguard; cbn.
  - assert (Hrole := proj1 (IsDisabled_role _) Hguard).
    destruct (Mac_SetDomainName aDomainName (mMac i)) as [error mac]; cbn.
    do 4 (split; [reflexivity |]).
    split; [intros Hne; contradiction | intros _; split; reflexivity].
  - assert (Hrole := proj1 (IsDisabled_false_role _) Hguard).
    do 4 (split; [reflexivity |]).
    split; [intros _; destruct i; reflexivity | intros Hd; contradiction].
Qed.

(** X4: otThreadGetParentInfo, when it succeeds, fills a coherent record:
    the router id is the one derived from the RLOC16 written in the same
    record, the entry is marked allocated, the age fits in eight bits
    (the seconds are cast to uint8_t), the link-established bit is the
    validity of the parent record, and the remaining fields are copies of
    the parent's. *)
Theorem get_parent_info_record (now : Z) (aParentInfo : RouterInfo.otRouterInfo)
    (i : Instance) :
  let r := fst (otThreadGetParentInfo now aParentInfo i) in
  let parent := Mle.GetParent (mMleRouter i) in
  fst r = kErrorNone ->
  RouterInfo.mRouterId (snd r) = RouterIdFromRloc16 (RouterInfo.mRloc16 (snd r))
  /\ RouterInfo.mAllocated (snd r) = true
  /\ 0 <= RouterInfo.mAge (snd r) < 256
  /\ RouterInfo.mLinkEstablished (snd r) = RouterOps.IsStateValid parent
  /\ RouterInfo.mExtAddress (snd r) = mExtAddress parent
  /\ RouterInfo.mNextHop (snd r) = mNextHop parent
  /\ RouterInfo.mPathCost (snd r) = mCost parent
  /\ RouterInfo.mLinkQualityIn (snd r) = Neighbor.mLinkQuality (mLinkInfo parent)
  /\ RouterInfo.mLinkQualityOut (snd r) = mLinkQualityOut parent.
Proof.
  unfold otThreadGetParentInfo.
  destruct OPENTHREAD_CONFIG_REFERENCE_DEVICE_ENABLE;
    [| destruct (Mle.IsChild (mMleRouter i)) eqn:Hchild];
    run_api; try rewrite Hchild; cbn; intros Hok; try discriminate Hok;
    (do 2 (split; [reflexivity |]));
    (split; [apply Z.mod_pos_bound; reflexivity |]);
    repeat split.
Qed.

(** X5: otThreadGetParentInfo succeeds exactly when the reference-device flag
    is set or the role is Child; its only error is InvalidState, and a
    refused call does not write the caller's record.  The instance is not
    changed by the call. *)
Theorem get_parent_info_refusal (now : Z) (aParentInfo : RouterInfo.otRouterInfo)
    (i : Instance) :
  let r := otThreadGetParentInfo now aParentInfo i in
  (fst (fst r) = kErrorNone <->
   OPENTHREAD_CONFIG_REFERENCE_DEVICE_ENABLE = true
   \/ Mle.GetRole (mMleRouter i) = Mle.kRoleChild)
  /\ (fst (fst r) <> kErrorNone -> fst r = (kErrorInvalidState, aParentInfo))
  /\ snd r = i.
Proof.
  unfold otThreadGetParentInfo.
  destruct OPENTHREAD_CONFIG_REFERENCE_DEVICE_ENABLE.
  - open_instance i. run_api. split; [split; auto |]. split; [| reflexivity].
    intros Hne. contradiction Hne. reflexivity.
  - open_instance i. run_api. unfold Mle.IsChild, Mle.GetRole; cbn.
    destruct mRole; cbn; (split; [split; [intros E | intros [E | E]] |]);
      try discriminate E; auto;
      (split; [| reflexivity]); intros Hne; try reflexivity.
    contradiction Hne. reflexivity.
Qed.

(** X7: otThreadGetParentLastRssi returns Failed exactly when the parent's
    last RSSI is the invalid sentinel and success otherwise; the caller's
    variable receives the stored value in both cases (the sentinel on
    failure), and the instance is not changed. *)
Theorem get_parent_last_rssi (i : Instance) :
  let stored := Neighbor.mLastRss (mLinkInfo (Mle.mParent (mMleRouter i))) in
  let r := otThreadGetParentLastRssi i in
  (fst (fst r) = kErrorFailed <-> stored = OT_RADIO_RSSI_INVALID)
  /\ (fst (fst r) = kErrorNone <-> stored <> OT_RADIO_RSSI_INVALID)
  /\ snd (fst r) = stored
  /\ snd r = i.
Proof.
  open_instance i. run_api.
  unfold Neighbor.GetLastRss, RouterOps.GetLinkInfo, Mle.GetParent; cbn.
  destruct (Z.eqb_spec (Neighbor.mLastRss (mLinkInfo mParent)) OT_RADIO_RSSI_INVALID)
    as [E | E]; cbn.
  - split; [split; auto |]. split; [| split; reflexivity].
    split; [intros E'; discriminate E' | intros E'; contradiction].
  - split; [split; [intros E'; discriminate E' | intros E'; contradiction] |].
    split; [| split; reflexivity]. split; auto.
Qed.

(** X8: Neither RSSI call tests the role: two instances with the same parent
    record get the same answer from otThreadGetParentAverageRssi and from
    otThreadGetParentLastRssi, whatever their roles (a device that is no
    longer a child is still served the RSSI of its last parent). *)
Theorem parent_rssi_ignores_role (i j : Instance) :
  Mle.GetParent (mMleRouter i) = Mle.GetParent (mMleRouter j) ->
  fst (otThreadGetParentAverageRssi i) = fst (otThreadGetParentAverageRssi j)
  /\ fst (otThreadGetParentLastRssi i) = fst (otThreadGetParentLastRssi j).
Proof.
  intros Hparent. open_instance i. open_instance j. run_api.
  unfold Mle.GetParent in *; cbn in *. subst.
  split.
  - destruct (negb (Neighbor.GetAverageRss (RouterOps.GetLinkInfo mParent0)
                    =? OT_RADIO_RSSI_INVALID)); reflexivity.
  - destruct (negb (Neighbor.GetLastRss (RouterOps.GetLinkInfo mParent0)
                    =? OT_RADIO_RSSI_INVALID)); reflexivity.
Qed.

(** X9: otThreadSetExtendedPanId on a Disabled device succeeds, stores the
    extended PAN id and replaces the mesh-local prefix, whatever it was,
    by the prefix derived from the new id; network key, network name,
    role and neighbor table are left as they were. *)
Theorem set_extended_pan_id_effects (aExtendedPanId : otExtendedPanId) (i : Instance) :
  Mle.GetRole (mMleRouter i) = Mle.kRoleDisabled ->
  let r := otThreadSetExtendedPanId aExtendedPanId i in
  fst r = kErrorNone
  /\ fst (otThreadGetExtendedPanId (snd r)) = aExtendedPanId
  /\ fst (otThreadGetMeshLocalPrefix (snd r)) = SetFromExtendedPanId aExtendedPanId
  /\ fst (otThreadGetNetworkKey (snd r)) = fst (otThreadGetNetworkKey i)
  /\ fst (otThreadGetNetworkName (snd r)) = fst (otThreadGetNetworkName i)
  /\ fst (otThreadGetDeviceRole (snd r)) = fst (otThreadGetDeviceRole i)
  /\ mNeighborTable (snd r) = mNeighborTable i.
Proof.
  intros Hrole. apply IsDisabled_role in Hrole.
  run_api. rewrite Hrole. cbn. repeat split.
Qed.

(** X10: The order of otThreadSetMeshLocalPrefix and otThreadSetExtendedPanId
    matters on a Disabled device: both orders succeed and store the
    extended PAN id, but a prefix set before the extended PAN id is lost
    (the derived prefix replaces it), while a prefix set after it
    stays. *)
Theorem mesh_local_prefix_set_order (aMeshLocalPrefix : otMeshLocalPrefix)
    (aExtendedPanId : otExtendedPanId) (i : Instance) :
  Mle.GetRole (mMleRouter i) = Mle.kRoleDisabled ->
  let prefixFirst := otThreadSetMeshLocalPrefix aMeshLocalPrefix i in
  let thenPanId := otThreadSetExtendedPanId aExtendedPanId (snd prefixFirst) in
  let panIdFirst := otThreadSetExtendedPanId aExtendedPanId i in
  let thenPrefix := otThreadSetMeshLocalPrefix aMeshLocalPrefix (snd panIdFirst) in
  (fst prefixFirst = kErrorNone /\ fst thenPanId = kErrorNone
   /\ fst (otThreadGetMeshLocalPrefix (snd thenPanId)) = SetFromExtendedPanId aExtendedPanId
   /\ fst (otThreadGetExtendedPanId (snd thenPanId)) = aExtendedPanId)
  /\ (fst panIdFirst = kErrorNone /\ fst thenPrefix = kErrorNone
      /\ fst (otThreadGetMeshLocalPrefix (snd thenPrefix)) = aMeshLocalPrefix
      /\ fst (otThreadGetExtendedPanId (snd thenPrefix)) = aExtendedPanId).
Proof.
  intros Hrole. open_instance i. unfold Mle.GetRole in Hrole; cbn in Hrole. subst.
  run_api. repeat split.
Qed.

(** X11: The setters of extended PAN id, network key and mesh-local prefix
    have one error only: each returns success exactly when the role is
    Disabled and InvalidState otherwise.  (otThreadSetNetworkName differs:
    it can also return the error of Mac::SetNetworkName.) *)
Theorem identity_setter_success_iff_disabled (s : IdentitySetter) (i : Instance) :
  (forall aNetworkName : string, s <> IdNetworkName aNetworkName) ->
  (fst (CallIdentitySetter s i) = kErrorNone <->
   Mle.GetRole (mMleRouter i) = Mle.kRoleDisabled)
  /\ (fst (CallIdentitySetter s i) = kErrorInvalidState <->
      Mle.GetRole (mMleRouter i) <> Mle.kRoleDisabled).
Proof.
  intros Hkind.
  destruct (Mle.IsDisabled (mMleRouter i)) eqn:Hguard.
  - assert (Hrole := proj1 (IsDisabled_role _) Hguard).
    assert (Hok : fst (CallIdentitySetter s i) = kErrorNone).
    { destruct s; run_api; rewrite Hguard; cbn; try reflexivity.
      contradiction (Hkind aNetworkName). reflexivity. }
    rewrite Hok. split; split; intros E; auto; try discriminate E; contradiction.
  - assert (Hrole := proj1 (IsDisabled_false_role _) Hguard).
    rewrite (setter_refused s i Hguard). cbn.
    split; split; intros E; auto; try discriminate E; contradiction.
Qed.

(** X12: While the device is attached, the scalar getters agree with the
    structured one: otThreadGetLeaderWeight and otThreadGetPartitionId
    return the fields of the record that otThreadGetLeaderData writes on
    the same instance. *)
Theorem leader_scalars_agree_with_record (aLeaderData : Mle.LeaderData) (i : Instance) :
  fst (fst (otThreadGetLeaderData aLeaderData i)) = kErrorNone ->
  let written := snd (fst (otThreadGetLeaderData aLeaderData i)) in
  fst (otThreadGetLeaderWeight i) = Mle.GetWeighting written
  /\ fst (otThreadGetPartitionId i) = Mle.GetPartitionId written.
Proof.
  run_api. destruct (Mle.IsAttached (mMleRouter i)); cbn; intros Hok.
  - split; reflexivity.
  - discriminate Hok.
Qed.

End MoreProperties.

(** * The further statements at the sample device *)

Lemma set_network_key_ref_error_order_witness :
  @otThreadSetNetworkKeyRef SampleOptional.externals 0 (Sample.instance Mle.kRoleChild)
  = (kErrorInvalidArgs, Sample.instance Mle.kRoleChild)
  /\ @otThreadSetNetworkKeyRef SampleOptional.externals 0 (Sample.instance Mle.kRoleDisabled)
     = (kErrorInvalidArgs, Sample.instance Mle.kRoleDisabled)
  /\ @otThreadSetNetworkKeyRef SampleOptional.externals 7 (Sample.instance Mle.kRoleChild)
     = (kErrorInvalidState, Sample.instance Mle.kRoleChild).
Proof.
  destruct (@set_network_key_ref_error_order SampleOptional.externals 0
              (Sample.instance Mle.kRoleChild)) as (Hzero & _).
  destruct (@set_network_key_ref_error_order SampleOptional.externals 0
              (Sample.instance Mle.kRoleDisabled)) as (Hzero' & _).
  destruct (@set_network_key_ref_error_order SampleOptional.externals 7
              (Sample.instance Mle.kRoleChild)) as (_ & Hstate & _).
  split; [apply Hzero; reflexivity |].
  split; [apply Hzero'; reflexivity |].
  apply Hstate; discriminate.
Defined.

Lemma set_network_key_ref_success_effects_witness :
  fst (@otThreadSetNetworkKeyRef SampleOptional.externals 7
         (Sample.instance Mle.kRoleDisabled)) = kErrorNone
  /\ mActiveDataset (Sample.instance Mle.kRoleDisabled) = Some [Byte.x0e; Byte.x08]
  /\ MeshCoP.IsCleared
       (mActiveDataset
          (snd (@otThreadSetNetworkKeyRef SampleOptional.externals 7
                  (Sample.instance Mle.kRoleDisabled)))).
Proof.
  assert (Hok : fst (@otThreadSetNetworkKeyRef SampleOptional.externals 7
                       (Sample.instance Mle.kRoleDisabled)) = kErrorNone)
    by reflexivity.
  split; [exact Hok |]. split; [reflexivity |].
  destruct (@set_network_key_ref_success_effects SampleOptional.externals 7
              (Sample.instance Mle.kRoleDisabled) Hok) as (Hactive & _).
  exact Hactive.
Defined.

Lemma set_domain_name_keeps_datasets_witness :
  mActiveDataset
    (snd (@otThreadSetDomainName SampleOptional.externals "Thread"
            (Sample.instance Mle.kRoleDisabled)))
  = mActiveDataset (Sample.instance Mle.kRoleDisabled)
  /\ fst (@otThreadSetDomainName SampleOptional.externals "ADomainOfSeventeen"
            (Sample.instance Mle.kRoleDisabled)) = kErrorInvalidArgs
  /\ @otThreadSetDomainName SampleOptional.externals "Thread" (Sample.instance Mle.kRoleLeader)
     = (kErrorInvalidState, Sample.instance Mle.kRoleLeader).
Proof.
  destruct (@set_domain_name_keeps_datasets SampleOptional.externals "Thread"
              (Sample.instance Mle.kRoleDisabled)) as (Hactive & _).
  destruct (@set_domain_name_keeps_datasets SampleOptional.externals "ADomainOfSeventeen"
              (Sample.instance Mle.kRoleDisabled)) as (_ & _ & _ & _ & _ & Hdisabled).
  destruct (@set_domain_name_keeps_datasets SampleOptional.externals "Thread"
              (Sample.instance Mle.kRoleLeader)) as (_ & _ & _ & _ & Hrefused & _).
  split; [exact Hactive |].
  split; [exact (proj1 (Hdisabled eq_refl)) |].
  apply Hrefused; discriminate.
Defined.

Lemma get_parent_info_record_witness :
  fst (fst (@otThreadGetParentInfo (Sample.externals false) 70000 Sample.routerInfo
              (Sample.instance Mle.kRoleChild))) = kErrorNone
  /\ RouterInfo.mRouterId
       (snd (fst (@otThreadGetParentInfo (Sample.externals false) 70000 Sample.routerInfo
                    (Sample.instance Mle.kRoleChild)))) = 1
  /\ 0 <= RouterInfo.mAge
            (snd (fst (@otThreadGetParentInfo (Sample.externals false) 70000
                         Sample.routerInfo (Sample.instance Mle.kRoleChild)))) < 256.
Proof.
  assert (Hok : fst (fst (@otThreadGetParentInfo (Sample.externals false) 70000
                            Sample.routerInfo (Sample.instance Mle.kRoleChild)))
                = kErrorNone) by reflexivity.
  split; [exact Hok |].
  destruct (@get_parent_info_record (Sample.externals false) 70000 Sample.routerInfo
              (Sample.instance Mle.kRoleChild) Hok) as (Hid & _ & Hage & _).
  split; [exact Hid | exact Hage].
Defined.

Lemma get_parent_info_refusal_witness :
  @otThreadGetParentInfo (Sample.externals false) 70000 Sample.routerInfo
     (Sample.instance Mle.kRoleLeader)
  = (kErrorInvalidState, Sample.routerInfo, Sample.instance Mle.kRoleLeader)
  /\ fst (fst (@otThreadGetParentInfo (Sample.externals true) 70000 Sample.routerInfo
                 (Sample.instance Mle.kRoleLeader))) = kErrorNone.
Proof.
  destruct (@get_parent_info_refusal (Sample.externals false) 70000 Sample.routerInfo
              (Sample.instance Mle.kRoleLeader)) as (_ & Hrefused & Hsame).
  destruct (@get_parent_info_refusal (Sample.externals true) 70000 Sample.routerInfo
              (Sample.instance Mle.kRoleLeader)) as (Hiff & _).
  split.
  - apply injective_projections; [apply Hrefused; discriminate | exact Hsame].
  - apply Hiff. left; reflexivity.
Defined.

Lemma get_parent_last_rssi_witness :
  fst (@otThreadGetParentLastRssi (Sample.externals false)
         (Sample.device Mle.kRoleChild (Sample.router 1024 127))) = (kErrorFailed, 127)
  /\ fst (@otThreadGetParentLastRssi (Sample.externals false)
            (Sample.instance Mle.kRoleChild)) = (kErrorNone, -60).
Proof.
  destruct (@get_parent_last_rssi (Sample.externals false)
              (Sample.device Mle.kRoleChild (Sample.router 1024 127)))
    as (Hfailed & _ & Hvalue & _).
  destruct (@get_parent_last_rssi (Sample.externals false) (Sample.instance Mle.kRoleChild))
    as (_ & Hok & Hvalue' & _).
  split.
  - apply injective_projections; [apply Hfailed; reflexivity | exact Hvalue].
  - apply injective_projections; [apply Hok; discriminate | exact Hvalue'].
Defined.

Lemma parent_rssi_ignores_role_witness :
  Mle.GetParent (mMleRouter (Sample.instance Mle.kRoleChild))
  = Mle.GetParent (mMleRouter (Sample.instance Mle.kRoleDisabled))
  /\ fst (@otThreadGetParentAverageRssi (Sample.externals false)
            (Sample.instance Mle.kRoleChild))
     = fst (@otThreadGetParentAverageRssi (Sample.externals false)
              (Sample.instance Mle.kRoleDisabled)).
Proof.
  split; [reflexivity |].
  apply (@parent_rssi_ignores_role (Sample.externals false)
           (Sample.instance Mle.kRoleChild) (Sample.instance Mle.kRoleDisabled) eq_refl).
Defined.

Lemma set_extended_pan_id_effects_witness :
  Mle.GetRole (mMleRouter (Sample.instance Mle.kRoleDisabled)) = Mle.kRoleDisabled
  /\ fst (@otThreadGetMeshLocalPrefix
            (snd (@otThreadSetExtendedPanId (Sample.externals false) (repeat Byte.x11 8)
                    (Sample.instance Mle.kRoleDisabled))))
     = [Byte.xfd; Byte.x11; Byte.x11; Byte.x11; Byte.x11; Byte.x11; Byte.x00; Byte.x00].
Proof.
  split; [reflexivity |].
  destruct (@set_extended_pan_id_effects (Sample.externals false) (repeat Byte.x11 8)
              (Sample.instance Mle.kRoleDisabled) eq_refl) as (_ & _ & Hprefix & _).
  exact Hprefix.
Defined.

Lemma mesh_local_prefix_set_order_witness :
  Mle.GetRole (mMleRouter (Sample.instance Mle.kRoleDisabled)) = Mle.kRoleDisabled
  /\ fst (@otThreadGetMeshLocalPrefix
            (snd (@otThreadSetExtendedPanId (Sample.externals false) (repeat Byte.x11 8)
                    (snd (otThreadSetMeshLocalPrefix (repeat Byte.xfd 8)
                            (Sample.instance Mle.kRoleDisabled))))))
     = [Byte.xfd; Byte.x11; Byte.x11; Byte.x11; Byte.x11; Byte.x11; Byte.x00; Byte.x00]
  /\ fst (@otThreadGetMeshLocalPrefix
            (snd (otThreadSetMeshLocalPrefix (repeat Byte.xfd 8)
                    (snd (@otThreadSetExtendedPanId (Sample.externals false)
                            (repeat Byte.x11 8) (Sample.instance Mle.kRoleDisabled))))))
     = repeat Byte.xfd 8.
Proof.
  split; [reflexivity |].
  destruct (@mesh_local_prefix_set_order (Sample.externals false) (repeat Byte.xfd 8)
              (repeat Byte.x11 8) (Sample.instance Mle.kRoleDisabled) eq_refl)
    as ((_ & _ & Hlost & _) & (_ & _ & Hkept & _)).
  split; [exact Hlost | exact Hkept].
Defined.

Lemma identity_setter_success_iff_disabled_witness :
  (forall aNetworkName : string, IdNetworkKey (repeat Byte.x42 16) <> IdNetworkName aNetworkName)
  /\ fst (@CallIdentitySetter (Sample.externals false) (IdNetworkKey (repeat Byte.x42 16))
            (Sample.instance Mle.kRoleDisabled)) = kErrorNone
  /\ fst (@CallIdentitySetter (Sample.externals false) (IdNetworkKey (repeat Byte.x42 16))
            (Sample.instance Mle.kRoleRouter)) = kErrorInvalidState.
Proof.
  assert (Hkind : forall aNetworkName : string,
             IdNetworkKey (repeat Byte.x42 16) <> IdNetworkName aNetworkName)
    by (intros aNetworkName E; discriminate E).
  split; [exact Hkind |].
  destruct (@identity_setter_success_iff_disabled (Sample.externals false)
              (IdNetworkKey (repeat Byte.x42 16)) (Sample.instance Mle.kRoleDisabled) Hkind)
    as (Hok & _).
  destruct (@identity_setter_success_iff_disabled (Sample.externals false)
              (IdNetworkKey (repeat Byte.x42 16)) (Sample.instance Mle.kRoleRouter) Hkind)
    as (_ & Hrefused).
  split; [apply Hok; reflexivity | apply Hrefused; discriminate].
Defined.

Lemma leader_scalars_agree_with_record_witness :
  fst (fst (otThreadGetLeaderData Sample.noLeaderData (Sample.instance Mle.kRoleLeader)))
  = kErrorNone
  /\ fst (otThreadGetPartitionId (Sample.instance Mle.kRoleLeader))
     = Mle.GetPartitionId
         (snd (fst (otThreadGetLeaderData Sample.noLeaderData (Sample.instance Mle.kRoleLeader)))).
Proof.
  split; [reflexivity |].
  destruct (leader_scalars_agree_with_record Sample.noLeaderData
              (Sample.instance Mle.kRoleLeader) eq_refl) as (_ & Hpartition).
  exact Hpartition.
Defined.

Lemma get_parent_info_reference_device_witness :
  @OPENTHREAD_CONFIG_REFERENCE_DEVICE_ENABLE (Sample.externals true) = true
  /\ fst (fst (@otThreadGetParentInfo (Sample.externals true) 70000 Sample.routerInfo
                 (Sample.instance Mle.kRoleDetached))) = kErrorNone
  /\ RouterInfo.mRloc16
       (snd (fst (@otThreadGetParentInfo (Sample.externals true) 70000 Sample.routerInfo
                    (Sample.instance Mle.kRoleDetached)))) = 1024.
Proof.
  split; [reflexivity |].
  exact (@get_parent_info_reference_device (Sample.externals true) 70000 Sample.routerInfo
           (Sample.instance Mle.kRoleDetached) eq_refl).
Defined.
